(** * Tutor dashboard: lesson store, filter engine and month window

    A shallow embedding of the lesson store (zustand store with
    [fetchLessonsData], [takeClass], [filteredLessons]), of the date helpers
    of [utils/index.ts], of the constants of [constants] and of the filter
    handlers of the [Dashboard] page, followed by the properties of the
    specification that concern them.

    Conventions.
    - A JavaScript [Date] is its time value: milliseconds since the epoch as
      an integer, or [None] for an Invalid Date (time value NaN).  The
      range check of TimeClip (|t| <= 8.64e15) is not modelled.
    - The host's time zone is a parameter [tz] of the functions that use
      local time: it gives the offset of local time at each instant and
      the offset with which a local time is read back.  An integer [tza]
      used as a zone is the zone with that fixed offset (no daylight-saving
      transitions); the calendar theorems are stated for such zones.
    - [new Date()] is a parameter [now] of the functions that read the clock.
    - JavaScript numbers that hold indices are integers of [Z]. *)

From Stdlib Require Import ZArith Lia String Ascii.
From Stdlib Require Import DecimalString DecimalN DecimalFacts.
From stdpp Require Import base decidable option list numbers strings gmap.

Open Scope string_scope.
Open Scope Z_scope.

(** ** ECMAScript time values and the date-fns helpers the code calls *)

Module JSDate.

Definition msPerDay : Z := 86400000.
Definition msPerHour : Z := 3600000.
Definition msPerMinute : Z := 60000.
Definition msPerSecond : Z := 1000.

Definition Day (t : Z) : Z := t / msPerDay.
Definition TimeWithinDay (t : Z) : Z := t mod msPerDay.

Definition DaysInYear (y : Z) : Z :=
  if negb (y mod 4 =? 0) then 365
  else if negb (y mod 100 =? 0) then 366
  else if negb (y mod 400 =? 0) then 365
  else 366.

Definition DayFromYear (y : Z) : Z :=
  365 * (y - 1970) + (y - 1969) / 4 - (y - 1901) / 100 + (y - 1601) / 400.

(** The largest [y] with [DayFromYear y <= d]: an estimate from the mean
    length of a year, corrected by at most one year. *)
Definition YearFromDay (d : Z) : Z :=
  let y0 := 1970 + (400 * d) / 146097 in
  if d <? DayFromYear y0 then y0 - 1
  else if DayFromYear (y0 + 1) <=? d then y0 + 1
  else y0.

Definition YearFromTime (t : Z) : Z := YearFromDay (Day t).

Definition InLeapYear (t : Z) : Z :=
  if DaysInYear (YearFromTime t) =? 366 then 1 else 0.

Definition DayWithinYear (t : Z) : Z := Day t - DayFromYear (YearFromTime t).

Definition MonthFromTime (t : Z) : Z :=
  let d := DayWithinYear t in
  let l := InLeapYear t in
  if d <? 31 then 0
  else if d <? 59 + l then 1
  else if d <? 90 + l then 2
  else if d <? 120 + l then 3
  else if d <? 151 + l then 4
  else if d <? 181 + l then 5
  else if d <? 212 + l then 6
  else if d <? 243 + l then 7
  else if d <? 273 + l then 8
  else if d <? 304 + l then 9
  else if d <? 334 + l then 10
  else 11.

Definition DateFromTime (t : Z) : Z :=
  let d := DayWithinYear t in
  let l := InLeapYear t in
  match MonthFromTime t with
  | 0 => d + 1
  | 1 => d - 30
  | 2 => d - 58 - l
  | 3 => d - 89 - l
  | 4 => d - 119 - l
  | 5 => d - 150 - l
  | 6 => d - 180 - l
  | 7 => d - 211 - l
  | 8 => d - 242 - l
  | 9 => d - 272 - l
  | 10 => d - 303 - l
  | _ => d - 333 - l
  end.

Definition HourFromTime (t : Z) : Z := (t / msPerHour) mod 24.
Definition MinFromTime (t : Z) : Z := (t / msPerMinute) mod 60.

Definition MakeTime (hour min sec ms : Z) : Z :=
  hour * msPerHour + min * msPerMinute + sec * msPerSecond + ms.

(** Day number, within its year, of the first day of month [mn] (0..11);
    [l] is 1 in a leap year. *)
Definition DaysBeforeMonth (mn l : Z) : Z :=
  match mn with
  | 0 => 0
  | 1 => 31
  | 2 => 59 + l
  | 3 => 90 + l
  | 4 => 120 + l
  | 5 => 151 + l
  | 6 => 181 + l
  | 7 => 212 + l
  | 8 => 243 + l
  | 9 => 273 + l
  | 10 => 304 + l
  | _ => 334 + l
  end.

(** MakeDay: months outside 0..11 carry into the year, days outside the
    month carry linearly. *)
Definition MakeDay (year month date : Z) : Z :=
  let ym := year + month / 12 in
  let mn := month mod 12 in
  let l := if DaysInYear ym =? 366 then 1 else 0 in
  DayFromYear ym + DaysBeforeMonth mn l + date - 1.

Definition MakeDate (day time : Z) : Z := day * msPerDay + time.

(** The host's time zone.  [offset t] is the offset of local time, in
    milliseconds, at the instant [t].  [localOffset l] is the offset with
    which the local time value [l] is converted back: for a local time that
    a transition skips it is the offset before the transition, and for one
    that occurs twice it is the offset of the earlier instant. *)
Record TimeZone : Type := {
  offset : Z → Z;
  localOffset : Z → Z
}.

(** A zone without transitions. *)
Definition fixed (tza : Z) : TimeZone :=
  {| offset := λ _, tza; localOffset := λ _, tza |}.

(** A zone whose offset changes once, at the instant [instant], from
    [before] to [after].  Local times up to [instant + before] exist before
    the transition and those from [instant + after] on exist after it; the
    ones in between are skipped ([before < after]) or occur twice
    ([after < before]) and are converted with [before]. *)
Definition transition (instant before after : Z) : TimeZone :=
  {| offset := λ t, if t <? instant then before else after;
     localOffset := λ l, if l <? instant + Z.max before after
                         then before else after |}.

(** From the instant [lo] to the instant [hi] the zone keeps the offset
    [o], in both directions. *)
Definition steady (tz : TimeZone) (o lo hi : Z) : Prop :=
  ∀ t, lo ≤ t ≤ hi → offset tz t = o ∧ localOffset tz (t + o) = o.

Section LocalTime.

Variable tz : TimeZone.

Definition LocalTime (t : Z) : Z := t + offset tz t.
Definition UTC (t : Z) : Z := t - localOffset tz t.

(** *** Date.prototype *)

Definition getFullYear (tv : Z) : Z := YearFromTime (LocalTime tv).
Definition getMonth (tv : Z) : Z := MonthFromTime (LocalTime tv).
Definition getDate (tv : Z) : Z := DateFromTime (LocalTime tv).
Definition getHours (tv : Z) : Z := HourFromTime (LocalTime tv).
Definition getMinutes (tv : Z) : Z := MinFromTime (LocalTime tv).

Definition setHours (tv hour min sec ms : Z) : Z :=
  let t := LocalTime tv in
  UTC (MakeDate (Day t) (MakeTime hour min sec ms)).

Definition setDate (tv dt : Z) : Z :=
  let t := LocalTime tv in
  UTC (MakeDate (MakeDay (YearFromTime t) (MonthFromTime t) dt)
                (TimeWithinDay t)).

Definition setMonth (tv month dt : Z) : Z :=
  let t := LocalTime tv in
  UTC (MakeDate (MakeDay (YearFromTime t) month dt) (TimeWithinDay t)).

Definition setFullYear (tv year month dt : Z) : Z :=
  let t := LocalTime tv in
  UTC (MakeDate (MakeDay year month dt) (TimeWithinDay t)).

(** *** date-fns *)

Definition startOfDay (date : Z) : Z := setHours date 0 0 0 0.
Definition endOfDay (date : Z) : Z := setHours date 23 59 59 999.

Definition startOfMonth (date : Z) : Z :=
  setHours (setDate date 1) 0 0 0 0.

Definition endOfMonth (date : Z) : Z :=
  let month := getMonth date in
  setHours (setFullYear date (getFullYear date) (month + 1) 0)
           23 59 59 999.

Definition addMonths (date amount : Z) : Z :=
  if amount =? 0 then date
  else
    let dayOfMonth := getDate date in
    let endOfDesiredMonth := setMonth date (getMonth date + amount + 1) 0 in
    let daysInMonth := getDate endOfDesiredMonth in
    if daysInMonth <=? dayOfMonth then endOfDesiredMonth
    else setFullYear date (getFullYear endOfDesiredMonth)
                     (getMonth endOfDesiredMonth) dayOfMonth.

Definition subMonths (date amount : Z) : Z := addMonths date (- amount).

End LocalTime.

(** A [Date] object: [None] is an Invalid Date. *)
Definition Date : Type := option Z.

(** [a <= b], [a >= b], [a < b] on Date objects compare the time values;
    every comparison with NaN is false. *)
Definition le (a b : Date) : Prop :=
  match a, b with Some x, Some y => x <= y | _, _ => False end.
Definition lt (a b : Date) : Prop :=
  match a, b with Some x, Some y => x < y | _, _ => False end.
Definition ge (a b : Date) : Prop := le b a.

#[global] Instance le_dec a b : Decision (le a b).
Proof. destruct a, b; simpl; apply _. Defined.
#[global] Instance lt_dec a b : Decision (lt a b).
Proof. destruct a, b; simpl; apply _. Defined.
#[global] Instance ge_dec a b : Decision (ge a b).
Proof. unfold ge; apply _. Defined.

(** Absolute month number of a local time value and the number of the
    first day of an absolute month: the vocabulary in which the month
    window is specified. *)
Definition absMonth (t : Z) : Z := 12 * YearFromTime t + MonthFromTime t.
Definition firstDay (k : Z) : Z := MakeDay 0 k 1.

End JSDate.

(** An integer offset used where a zone is expected is the zone with that
    fixed offset. *)
Coercion JSDate.fixed : Z >-> JSDate.TimeZone.

(** ** types *)

Module Types.

Inductive LessonType : Type := Historic | Upcoming | Available.

Inductive LessonStatus : Type := Completed | Confirmed | AvailableStatus.

(** [date] holds the time value of [new Date(lesson.date)], the only way
    the code reads the field; [None] when the string does not parse. *)
Record Lesson : Type := {
  id : string;
  date : JSDate.Date;
  type : LessonType;
  subject : string;
  students : list string;
  tutor : option string;
  status : LessonStatus
}.

Record User : Type := {
  user_id : string;
  name : string;
  email : string
}.

(** ['Today'] next to the three lesson types. *)
Inductive LessonFilterType : Type :=
| OfType (t : LessonType)
| Today.

#[global] Instance LessonType_eq_dec : EqDecision LessonType.
Proof. solve_decision. Defined.
#[global] Instance LessonStatus_eq_dec : EqDecision LessonStatus.
Proof. solve_decision. Defined.
#[global] Instance Lesson_eq_dec : EqDecision Lesson.
Proof. solve_decision. Defined.

End Types.

(** ** constants *)

Module MONTH_FILTER.
Definition MONTHS_BACK : Z := 5.
Definition MONTHS_FORWARD : Z := 6.
Definition TOTAL_MONTHS : Z := 12.
Definition PAST_MONTHS_THRESHOLD : Z := 5.
End MONTH_FILTER.

Module DATE_FILTER.
Definition CLEAR_MONTH_INDEX : Z := -1.
End DATE_FILTER.

(** ** Asynchronous store actions

    An action runs until it returns, throws, or awaits one of the two
    services; while it is suspended the store is visible to the page, and
    the continuation is resumed on the store as it is when the promise
    settles. *)

Module Async.
Import Types.

(** A thrown value: an [Error] object with its message, or anything else. *)
Inductive Thrown : Type :=
| ErrorObject (message : string)
| OtherValue (repr : string).

Inductive Settled (A : Type) : Type :=
| Fulfilled (a : A)
| Rejected (reason : Thrown).
Arguments Fulfilled {A} a.
Arguments Rejected {A} reason.

Inductive Outcome (A : Type) : Type :=
| Returned (a : A)
| Threw (e : Thrown).
Arguments Returned {A} a.
Arguments Threw {A} e.

(** The response of the claim service: every field of a lesson may be
    missing; [tutor] may also be present and [null]. *)
Record PartialLesson : Type := {
  r_id : option string;
  r_date : option JSDate.Date;
  r_type : option LessonType;
  r_subject : option string;
  r_students : option (list string);
  r_tutor : option (option string);
  r_status : option LessonStatus
}.

Section Steps.

(** The state of the store. *)
Variable S : Type.

Inductive Step (A : Type) : Type :=
| Finished (o : Outcome A) (s : S)
| AwaitFetchLessons (s : S)
    (k : Settled (list Lesson) → S → Step A)
| AwaitTakeClass (lessonId : string) (s : S)
    (k : Settled PartialLesson → S → Step A).

Definition Action (A : Type) : Type := S → Step A.

Fixpoint bindStep {A B} (x : Step A) (f : A → Action B) : Step B :=
  match x with
  | Finished _ (Returned a) s => f a s
  | Finished _ (Threw e) s => Finished B (Threw e) s
  | AwaitFetchLessons _ s k =>
      AwaitFetchLessons B s (λ r s', bindStep (k r s') f)
  | AwaitTakeClass _ lessonId s k =>
      AwaitTakeClass B lessonId s (λ r s', bindStep (k r s') f)
  end.

Fixpoint catchStep {A} (x : Step A) (h : Thrown → Action A) : Step A :=
  match x with
  | Finished _ (Returned a) s => Finished A (Returned a) s
  | Finished _ (Threw e) s => h e s
  | AwaitFetchLessons _ s k =>
      AwaitFetchLessons A s (λ r s', catchStep (k r s') h)
  | AwaitTakeClass _ lessonId s k =>
      AwaitTakeClass A lessonId s (λ r s', catchStep (k r s') h)
  end.

Definition ret {A} (a : A) : Action A := λ s, Finished A (Returned a) s.
Definition throw {A} (e : Thrown) : Action A := λ s, Finished A (Threw e) s.
Definition bind {A B} (m : Action A) (f : A → Action B) : Action B :=
  λ s, bindStep (m s) f.
Definition tryCatch {A} (body : Action A) (h : Thrown → Action A)
    : Action A :=
  λ s, catchStep (body s) h.

(** [get()] and [set(...)] of the store. *)
Definition get : Action S := λ s, Finished S (Returned s) s.
Definition set_ (f : S → S) : Action unit :=
  λ s, Finished unit (Returned tt) (f s).

(** [await] of a service call: a rejected promise throws at the
    [await]. *)
Definition settle {A} (r : Settled A) : Action A :=
  match r with
  | Fulfilled a => ret a
  | Rejected e => throw e
  end.
Definition awaitFetchLessons : Action (list Lesson) :=
  λ s, AwaitFetchLessons _ s settle.
Definition awaitTakeClass (lessonId : string) : Action PartialLesson :=
  λ s, AwaitTakeClass _ lessonId s settle.

(** *** Observation *)

Inductive ServiceCall : Type :=
| CallFetchLessons
| CallTakeClass (lessonId : string).

(** The store as the page sees it while the action is suspended. *)
Definition pending {A} (x : Step A) : option S :=
  match x with
  | Finished _ _ _ => None
  | AwaitFetchLessons _ s _ => Some s
  | AwaitTakeClass _ _ s _ => Some s
  end.

(** Runs an action to its end against the two services, with nothing
    else touching the store meanwhile; the service calls are logged in
    order. *)
Fixpoint run {A} (fetchLessons : Settled (list Lesson))
    (takeClassAPI : string → Settled PartialLesson)
    (x : Step A) : Outcome A * S * list ServiceCall :=
  match x with
  | Finished _ o s => (o, s, [])
  | AwaitFetchLessons _ s k =>
      let '(o, s', calls) :=
        run fetchLessons takeClassAPI (k fetchLessons s) in
      (o, s', CallFetchLessons :: calls)
  | AwaitTakeClass _ lessonId s k =>
      let '(o, s', calls) :=
        run fetchLessons takeClassAPI (k (takeClassAPI lessonId) s) in
      (o, s', CallTakeClass lessonId :: calls)
  end.

End Steps.

Arguments Finished {S A} o s.
Arguments AwaitFetchLessons {S A} s k.
Arguments AwaitTakeClass {S A} lessonId s k.
Arguments bindStep {S A B} x f.
Arguments catchStep {S A} x h.
Arguments ret {S A} a.
Arguments throw {S A} e.
Arguments bind {S A B} m f.
Arguments tryCatch {S A} body h.
Arguments get {S}.
Arguments set_ {S} f.
Arguments settle {S A} r.
Arguments awaitFetchLessons {S}.
Arguments awaitTakeClass {S} lessonId.
Arguments pending {S A} x.
Arguments run {S A} fetchLessons takeClassAPI x.

Declare Scope action_scope.
Delimit Scope action_scope with action.
Notation "'let!' x ':=' m 'in' k" := (bind m (λ x, k))
  (at level 10, x name, m at level 100, k at level 200) : action_scope.
Notation "'do!' m 'in' k" := (bind m (λ _, k))
  (at level 10, m at level 100, k at level 200) : action_scope.

End Async.

(** ** date-fns [format], for the patterns the code uses *)

Module Format.
Import Async.

(** [String(n)] for a natural number. *)
Definition toString (n : N) : string := NilZero.string_of_uint (N.to_uint n).

Fixpoint repeatChar (n : nat) (c : ascii) : string :=
  match n with
  | O => EmptyString
  | S n' => String c (repeatChar n' c)
  end.

(** [s.padStart(targetLength, c)] for a one-character filler. *)
Definition padStart (s : string) (targetLength : nat) (c : ascii) : string :=
  repeatChar (targetLength - String.length s) c ++ s.

Definition addLeadingZeros (number : Z) (targetLength : nat) : string :=
  let sign := if number <? 0 then "-" else "" in
  let output := padStart (toString (Z.abs_N number)) targetLength "0" in
  sign ++ output.

(** [format(date, 'yyyy-MM')] on a valid date: the year token prints year
    [1 - y] for a year [y <= 0]. *)
Definition yyyy_MM (tz : JSDate.TimeZone) (date : Z) : string :=
  let signedYear := JSDate.getFullYear tz date in
  let year := if 0 <? signedYear then signedYear else 1 - signedYear in
  let month := JSDate.getMonth tz date in
  addLeadingZeros year 4 ++ "-" ++ addLeadingZeros (month + 1) 2.

(** The month names of the default locale, for the token [MMMM]. *)
Definition monthValues : list string :=
  ["January"; "February"; "March"; "April"; "May"; "June"; "July"; "August";
   "September"; "October"; "November"; "December"].

(** [format(date, 'MMMM dd, yyyy')] and [format(date, 'HH:mm')] on a valid
    date. *)
Definition MMMM_dd_yyyy (tz : JSDate.TimeZone) (date : Z) : string :=
  let signedYear := JSDate.getFullYear tz date in
  let year := if 0 <? signedYear then signedYear else 1 - signedYear in
  let month := JSDate.getMonth tz date in
  default "" (monthValues !! Z.to_nat month) ++ " "
  ++ addLeadingZeros (JSDate.getDate tz date) 2 ++ ", "
  ++ addLeadingZeros year 4.

Definition HH_mm (tz : JSDate.TimeZone) (date : Z) : string :=
  addLeadingZeros (JSDate.getHours tz date) 2 ++ ":"
  ++ addLeadingZeros (JSDate.getMinutes tz date) 2.

(** [format(date, ...)], given what the pattern prints on a valid date: on
    an Invalid Date it throws a RangeError, whatever the pattern. *)
Definition format (pattern : Z → string) (date : JSDate.Date)
    : Thrown + string :=
  match date with
  | Some d => inr (pattern d)
  | None => inl (ErrorObject "Invalid time value")
  end.

End Format.

(** ** utils *)

Module Utils.
Import Types Async.

Section Clock.

Variable tz : JSDate.TimeZone.

(** [date] is the Date object the caller passes. *)
Definition formatDate (date : JSDate.Date) : Thrown + string :=
  let dateObj := date in
  Format.format (Format.MMMM_dd_yyyy tz) dateObj.

Definition formatTime (date : JSDate.Date) : Thrown + string :=
  let dateObj := date in
  Format.format (Format.HH_mm tz) dateObj.

(** [now] is the reading of [new Date()]. *)
Definition getTodayRange (now : Z) : Z * Z :=
  let today := JSDate.startOfDay tz now in
  let tomorrow := JSDate.endOfDay tz now in
  (today, tomorrow).

Definition isToday (now : Z) (date : JSDate.Date) : bool :=
  let '(start, end_) := getTodayRange now in
  bool_decide (JSDate.ge date (Some start) ∧ JSDate.le date (Some end_)).

Definition getMonthRange (date : Z) : Z * Z :=
  let monthStart := JSDate.startOfMonth tz date in
  let monthEnd := JSDate.endOfMonth tz date in
  (monthStart, monthEnd).

End Clock.

Definition filterLessonsByDateRange
    (lessons : list Lesson) (startDate endDate : JSDate.Date) : list Lesson :=
  filter (λ lesson,
            let lessonDate := date lesson in
            JSDate.ge lessonDate startDate ∧ JSDate.le lessonDate endDate)
         lessons.

Definition filterTodayLessons (tz : JSDate.TimeZone) (now : Z) (lessons : list Lesson)
    : list Lesson :=
  let '(start, end_) := getTodayRange tz now in
  filterLessonsByDateRange lessons (Some start) (Some end_).

End Utils.

(** ** store/lessonStore *)

Module LessonStore.
Import Types Async.

Record LessonState : Type := {
  lessons : list Lesson;
  loading : bool;
  error : option string
}.

(** State of the auth store; [takeClass] reads its [user] only. *)
Record AuthState : Type := { user : option User }.

(** [a || b] on an optional string: [undefined], [null] and the empty
    string are falsy. *)
Definition or_else (a : option string) (b : string) : string :=
  match a with
  | Some s => if decide (s = "") then b else s
  | None => b
  end.

(** [a ?? b]. *)
Definition nullish {A} (a : option A) (b : A) : A :=
  match a with Some x => x | None => b end.

Definition fetchLessonsData : Action LessonState unit :=
  (do! set_ (λ s, {| lessons := lessons s; loading := true; error := None |}) in
   tryCatch
     (let! data := awaitFetchLessons in
      set_ (λ s, {| lessons := data; loading := false; error := error s |}))
     (λ err,
        set_ (λ s, {| lessons := lessons s;
                      loading := false;
                      error := Some match err with
                                    | ErrorObject message => message
                                    | OtherValue _ =>
                                        "Failed to fetch lessons data"
                                    end |})))%action.

(** [authState.user?.name || 'Unknown Tutor']. *)
Definition currentUser (authState : AuthState) : string :=
  or_else (name <$> user authState) "Unknown Tutor".

(** The object literal [finalLesson]: both spreads, then the four fields
    written after them. *)
Definition finalLesson (lessonToTake : Lesson) (updatedLesson : PartialLesson)
    (authState : AuthState) : Lesson :=
  {| id := nullish (r_id updatedLesson) (id lessonToTake);
     date := nullish (r_date updatedLesson) (date lessonToTake);
     subject := nullish (r_subject updatedLesson) (subject lessonToTake);
     type := nullish (r_type updatedLesson) Upcoming;
     tutor := Some (or_else (mjoin (r_tutor updatedLesson))
                            (currentUser authState));
     status := nullish (r_status updatedLesson) Confirmed;
     students := nullish (r_students updatedLesson)
                         (nullish (Some (students lessonToTake)) []) |}.

(** [lessons.find(...)]: the first lesson that satisfies the guard. *)
Definition lessonToTake (lessons : list Lesson) (lessonId : string)
    : option Lesson :=
  snd <$> list_find (λ lesson, id lesson = lessonId ∧ type lesson = Available)
                    lessons.

Definition takeClass (authState : AuthState) (lessonId : string)
    : Action LessonState unit :=
  (let! st := get in
   let lessons_ := lessons st in
   match lessonToTake lessons_ lessonId with
   | None => throw (ErrorObject "Lesson not found or not available")
   | Some lessonToTake =>
       tryCatch
         (let! updatedLesson := awaitTakeClass lessonId in
          let finalLesson := finalLesson lessonToTake updatedLesson authState in
          let updatedLessons :=
            (λ lesson, if decide (id lesson = lessonId)
                       then finalLesson else lesson) <$> lessons_ in
          set_ (λ s, {| lessons := updatedLessons;
                        loading := loading s; error := error s |}))
         (λ error_, throw error_)
   end)%action.

(** [tz] and [now] stand for the host's time zone and [new Date()]. *)
Definition filteredLessons (tz : JSDate.TimeZone) (now : Z) (st : LessonState)
    (type_ : option LessonFilterType)
    (dateRange : option (JSDate.Date * JSDate.Date)) : list Lesson :=
  let filtered := lessons st in
  let filtered :=
    match type_ with
    | Some Today =>
        let today := JSDate.setHours tz now 0 0 0 0 in
        let tomorrow :=
          JSDate.setDate tz today (JSDate.getDate tz today + 1) in
        filter (λ lesson,
                  let lessonDate := date lesson in
                  JSDate.ge lessonDate (Some today)
                  ∧ JSDate.lt lessonDate (Some tomorrow))
               filtered
    | Some (OfType t) => filter (λ lesson, type lesson = t) filtered
    | None => filtered
    end in
  match dateRange with
  | Some (start, end_) =>
      filter (λ lesson,
                let lessonDate := date lesson in
                JSDate.ge lessonDate start ∧ JSDate.le lessonDate end_)
             filtered
  | None => filtered
  end.

End LessonStore.

(** ** pages/Dashboard: filter selection and the four buckets *)

Module Dashboard.
Import Types LessonStore.

(** The two [useState] cells of the filter selection. *)
Record FilterState : Type := {
  selectedMonth : option Z;
  dateRange : option (JSDate.Date * JSDate.Date)
}.

Definition initial : FilterState :=
  {| selectedMonth := None; dateRange := None |}.

Definition handleMonthChange (monthIndex : Z) (fs : FilterState)
    : FilterState :=
  if decide (monthIndex = DATE_FILTER.CLEAR_MONTH_INDEX)
  then {| selectedMonth := None; dateRange := None |}
  else {| selectedMonth := Some monthIndex; dateRange := None |}.

(** [start] and [end_] are [Date | null]; a Date object is truthy. *)
Definition handleDateRangeChange (start end_ : option JSDate.Date)
    (fs : FilterState) : FilterState :=
  match start, end_ with
  | Some s, Some e => {| selectedMonth := None; dateRange := Some (s, e) |}
  | _, _ => {| selectedMonth := selectedMonth fs; dateRange := None |}
  end.

(** [handleClearFilters] of the filter bar, as far as it reaches the
    page: both callbacks, in this order. *)
Definition handleClearFilters (fs : FilterState) : FilterState :=
  handleDateRangeChange None None
    (handleMonthChange DATE_FILTER.CLEAR_MONTH_INDEX fs).

Inductive FilterAction : Type :=
| SelectMonth (monthIndex : Z)
| SelectDateRange (start end_ : option JSDate.Date)
| ClearFilters.

Definition apply (a : FilterAction) (fs : FilterState) : FilterState :=
  match a with
  | SelectMonth monthIndex => handleMonthChange monthIndex fs
  | SelectDateRange start end_ => handleDateRangeChange start end_ fs
  | ClearFilters => handleClearFilters fs
  end.

Inductive reachable : FilterState → Prop :=
| reachable_initial : reachable initial
| reachable_step a fs : reachable fs → reachable (apply a fs).

Section Clock.

Variable tz : JSDate.TimeZone.
Variable now : Z.

(** The month the selected slot stands for. *)
Definition targetDate (selectedMonth : Z) : Z :=
  let currentMonth := JSDate.startOfMonth tz now in
  if decide (selectedMonth ≤ MONTH_FILTER.PAST_MONTHS_THRESHOLD)
  then JSDate.subMonths tz currentMonth
         (MONTH_FILTER.MONTHS_BACK - selectedMonth)
  else JSDate.addMonths tz currentMonth
         (selectedMonth - MONTH_FILTER.MONTHS_BACK).

Definition getFilteredLessonsByType (st : LessonState) (fs : FilterState)
    (type_ : LessonFilterType) : list Lesson :=
  let filtered := filteredLessons tz now st (Some type_) (dateRange fs) in
  match selectedMonth fs with
  | Some selectedMonth =>
      let '(monthStart, monthEnd) :=
        Utils.getMonthRange tz (targetDate selectedMonth) in
      Utils.filterLessonsByDateRange filtered
        (Some monthStart) (Some monthEnd)
  | None => filtered
  end.

Definition getTodayLessons (st : LessonState) (fs : FilterState)
    : list Lesson :=
  let todayLessons := Utils.filterTodayLessons tz now (lessons st) in
  let todayLessons :=
    match selectedMonth fs with
    | Some selectedMonth =>
        let '(monthStart, monthEnd) :=
          Utils.getMonthRange tz (targetDate selectedMonth) in
        Utils.filterLessonsByDateRange todayLessons
          (Some monthStart) (Some monthEnd)
    | None => todayLessons
    end in
  match dateRange fs with
  | Some (start, end_) =>
      Utils.filterLessonsByDateRange todayLessons start end_
  | None => todayLessons
  end.

End Clock.

End Dashboard.

(** ** constants: the month names *)

Module Constants.

Definition MONTH_NAMES : list string :=
  ["January"; "February"; "March"; "April"; "May"; "June"; "July"; "August";
   "September"; "October"; "November"; "December"].

Definition MONTH_ABBREVIATIONS : list string :=
  ["Jan"; "Feb"; "Mar"; "Apr"; "May"; "Jun"; "Jul"; "Aug"; "Sep"; "Oct";
   "Nov"; "Dec"].

End Constants.


(** ** services/api *)

Module Api.
Import Types Async LessonStore.

(** [import.meta.env]. *)
Record ImportMetaEnv : Type := {
  VITE_API_BASE_URL : option string;
  VITE_API_TIMEOUT : option string;
  VITE_USE_MOCK_API : option string
}.

(** Truthiness of an optional string. *)
Definition truthy (a : option string) : bool :=
  match a with
  | Some s => bool_decide (s ≠ "")
  | None => false
  end.

Definition LESSONS : string := "/lessons".
Definition TAKE_CLASS : string := "/lessons/take".

Definition mockLessons : list Lesson :=
  [ {| id := "L001"; date := Some 1761660000000; type := Historic;
       subject := "Minecraft Game Design - Level 1";
       students := ["Ethan"; "Ava"]; tutor := Some "Sarah Tan";
       status := Completed |};
    {| id := "L002"; date := Some 1762074000000; type := Historic;
       subject := "Roblox Coding Basics";
       students := ["Lucas"]; tutor := Some "Sarah Tan";
       status := Completed |};
    {| id := "L003"; date := Some 1762358400000; type := Historic;
       subject := "Python for Kids - Introduction";
       students := ["Chloe"; "Aaron"]; tutor := Some "Sarah Tan";
       status := Completed |};
    {| id := "L004"; date := Some 1762596000000; type := Upcoming;
       subject := "Minecraft Redstone Logic";
       students := ["Emma"; "Noah"]; tutor := Some "Sarah Tan";
       status := Confirmed |};
    {| id := "L005"; date := Some 1762700400000; type := Upcoming;
       subject := "Roblox Game Design - Level 2";
       students := ["Ryan"; "Mia"]; tutor := Some "Sarah Tan";
       status := Confirmed |};
    {| id := "L006"; date := Some 1762776000000; type := Upcoming;
       subject := "Website Design for Beginners";
       students := ["Olivia"]; tutor := Some "Sarah Tan";
       status := Confirmed |};
    {| id := "L007"; date := Some 1762945200000; type := Available;
       subject := "Python for Kids - Game Projects";
       students := []; tutor := None; status := AvailableStatus |};
    {| id := "L008"; date := Some 1763053200000; type := Available;
       subject := "Roblox Game Design - Level 1";
       students := []; tutor := None; status := AvailableStatus |};
    {| id := "L009"; date := Some 1763114400000; type := Available;
       subject := "Minecraft AI Coding Adventure";
       students := []; tutor := None; status := AvailableStatus |};
    {| id := "L010"; date := Some 1763197200000; type := Upcoming;
       subject := "Python Automation for Kids";
       students := ["Elijah"]; tutor := Some "Sarah Tan";
       status := Confirmed |};
    {| id := "L011"; date := Some 1767430800000; type := Upcoming;
       subject := "Python Automation for Kids2";
       students := ["Celtic"]; tutor := Some "Sarah Tan";
       status := Confirmed |} ].

(** What [fetch] or [response.json()] may reject with: an Error with its
    name and message, or any other value. *)
Inductive Raised : Type :=
| RaisedError (name message : string)
| RaisedOther.

Record Response (A : Type) : Type := {
  ok : bool;
  statusText : string;
  json : Raised + A
}.
Arguments ok {A} _.
Arguments statusText {A} _.
Arguments json {A} _.

(** The request handed to [fetch]; [body] stands for
    [JSON.stringify({ lessonId })]. *)
Record Request : Type := {
  url : string;
  method : string;
  body : option string
}.

(** A lesson sent as a whole. *)
Definition whole (lesson : Lesson) : PartialLesson :=
  {| r_id := Some (id lesson); r_date := Some (date lesson);
     r_type := Some (type lesson); r_subject := Some (subject lesson);
     r_students := Some (students lesson); r_tutor := Some (tutor lesson);
     r_status := Some (status lesson) |}.

(** [new Error(message)] thrown out of the service. *)
Definition rethrown (prefix fallback : string) (error : Raised) : Thrown :=
  ErrorObject match error with
              | RaisedError _ message => prefix ++ message
              | RaisedOther => fallback
              end.

Section Configured.

Variable env : ImportMetaEnv.

(** [String(API_TIMEOUT)], where
    [API_TIMEOUT = Number(env.VITE_API_TIMEOUT) || 30000]. *)
Variable timeoutText : string.

Definition API_BASE_URL : string := or_else (VITE_API_BASE_URL env) "".

Definition USE_MOCK_API : bool :=
  bool_decide (VITE_USE_MOCK_API env = Some "true")
  || negb (truthy (VITE_API_BASE_URL env)).

(** [fetched] is what [fetch] settles with; when the timer fires first it
    is the abort of the request. *)
Definition fetchWithTimeout {A} (fetched : Raised + Response A)
    : Raised + Response A :=
  match fetched with
  | inr response => inr response
  | inl error =>
      match error with
      | RaisedError name _ =>
          if decide (name = "AbortError")
          then inl (RaisedError "Error"
                      ("Request timeout after " ++ timeoutText ++ "ms"))
          else inl error
      | RaisedOther => inl error
      end
  end.

Definition fetchLessons (fetch : Request → Raised + Response (list Lesson))
    : Settled (list Lesson) :=
  if USE_MOCK_API then Fulfilled mockLessons
  else
    let attempt :=
      match fetchWithTimeout
              (fetch {| url := API_BASE_URL ++ LESSONS; method := "GET";
                        body := None |}) with
      | inl error => inl error
      | inr response =>
          if negb (ok response)
          then inl (RaisedError "Error"
                      ("Failed to fetch lessons: " ++ statusText response))
          else json response
      end in
    match attempt with
    | inr data => Fulfilled data
    | inl error =>
        Rejected (rethrown "Failed to fetch lessons: " "Failed to fetch lessons"
                           error)
    end.

Definition takeClass (fetch : Request → Raised + Response PartialLesson)
    (lessonId : string) : Settled PartialLesson :=
  if USE_MOCK_API then
    match snd <$> list_find (λ l, id l = lessonId) mockLessons with
    | None => Rejected (ErrorObject "Lesson not found")
    | Some lesson =>
        if decide (type lesson = Available)
        then Fulfilled
               {| r_id := Some (id lesson); r_date := Some (date lesson);
                  r_subject := Some (subject lesson);
                  r_type := Some Upcoming;
                  r_status := Some Confirmed;
                  r_tutor := Some (Some (or_else (tutor lesson) "Sarah Tan"));
                  r_students := Some (students lesson) |}
        else Fulfilled (whole lesson)
    end
  else
    let attempt :=
      match fetchWithTimeout
              (fetch {| url := API_BASE_URL ++ TAKE_CLASS; method := "POST";
                        body := Some lessonId |}) with
      | inl error => inl error
      | inr response =>
          if negb (ok response)
          then inl (RaisedError "Error"
                      ("Failed to take class: " ++ statusText response))
          else json response
      end in
    match attempt with
    | inr data => Fulfilled data
    | inl error =>
        Rejected (rethrown "Failed to take class: " "Failed to take class" error)
    end.

End Configured.

End Api.

(** ** components/LessonCard and components/LessonSection *)

Module LessonCard.
Import Types Async.

Section Clock.

Variable tz : JSDate.TimeZone.

(** The card, as far as its 'Take Class' button goes.  The two texts are
    formatted before anything is rendered, so the card throws when
    [formatDate] or [formatTime] does; otherwise the button is present for
    an [Available] lesson when the section hands down [onTakeClass], and
    the value is what a click calls. *)
Definition LessonCard {A} (lesson : Lesson)
    (onTakeClass : option (string → A)) : Thrown + option A :=
  let lessonDate := date lesson in
  match Utils.formatDate tz lessonDate with
  | inl e => inl e
  | inr formattedDate =>
      match Utils.formatTime tz lessonDate with
      | inl e => inl e
      | inr formattedTime =>
          inr (if decide (type lesson = Available)
               then (λ f, f (id lesson)) <$> onTakeClass
               else None)
      end
  end.

(** A section renders one card per lesson, in order, and hands
    [onTakeClass] down to each; it throws what the first failing card
    throws.  The value lists the buttons of its cards. *)
Fixpoint LessonSection {A} (lessons : list Lesson)
    (onTakeClass : option (string → A)) : Thrown + list A :=
  match lessons with
  | [] => inr []
  | lesson :: rest =>
      match LessonCard lesson onTakeClass with
      | inl e => inl e
      | inr button =>
          match LessonSection rest onTakeClass with
          | inl e => inl e
          | inr buttons => inr (option_list button ++ buttons)%list
          end
      end
  end.

End Clock.

End LessonCard.

(** ** pages/Dashboard: months with data, the sections and the toast *)

Module Page.
Import Types Async LessonStore Dashboard.

Section Clock.

Variable tz : JSDate.TimeZone.
Variable now : Z.

(** [format] is reached with a valid date only: an Invalid Date fails the
    comparison before it. *)
Definition availableMonths (lessons : list Lesson) : gset string :=
  let currentMonth := JSDate.startOfMonth tz now in
  let monthsAgo := JSDate.subMonths tz currentMonth MONTH_FILTER.MONTHS_BACK in
  let monthsForward :=
    JSDate.addMonths tz currentMonth MONTH_FILTER.MONTHS_FORWARD in
  foldl (λ monthsSet lesson,
           let lessonDate := date lesson in
           let lessonMonth := JSDate.startOfMonth tz <$> lessonDate in
           if decide (JSDate.ge lessonMonth (Some monthsAgo)
                      ∧ JSDate.le lessonMonth (Some monthsForward))
           then match lessonDate with
                | Some d => {[ Format.yyyy_MM tz d ]} ∪ monthsSet
                | None => monthsSet
                end
           else monthsSet)
        ∅ lessons.

(** The four sections, in the order of the page: title, lessons, and
    whether the section hands [handleTakeClass] down to its cards. *)
Definition sections (st : LessonState) (fs : FilterState)
    : list (string * list Lesson * bool) :=
  [ ("Today's Lessons", getTodayLessons tz now st fs, false);
    ("Available Lessons",
     getFilteredLessonsByType tz now st fs (OfType Available), true);
    ("Upcoming Lessons",
     getFilteredLessonsByType tz now st fs (OfType Upcoming), false);
    ("Historic Lessons",
     getFilteredLessonsByType tz now st fs (OfType Historic), false) ].

(** The sections are rendered under [!loading && !error]. *)
Definition showsSections (st : LessonState) : bool :=
  negb (loading st) && negb (Api.truthy (error st)).

(** The page, as far as its 'Take Class' buttons go: the lesson ids that a
    click on one of them passes to [handleTakeClass].  The sections are
    rendered in order, and the page throws what the first failing section
    throws. *)
Definition takeClassButtons (st : LessonState) (fs : FilterState)
    : Thrown + list string :=
  if showsSections st
  then foldr (λ '(_, lessons, handler) rest,
                match LessonCard.LessonSection tz lessons
                        (if handler : bool
                         then Some (λ lessonId : string, lessonId)
                         else None) with
                | inl e => inl e
                | inr buttons =>
                    match rest with
                    | inl e => inl e
                    | inr more => inr (buttons ++ more)%list
                    end
                end)
             (inr []) (sections st fs)
  else inr [].

End Clock.

Inductive ToastType : Type := success | error_ | info.

Record Toast : Type := { message : string; toastType : ToastType }.

(** The store together with the [toast] cell of the page. *)
Record PageState : Type := { store : LessonState; toast : option Toast }.

(** A store action run inside the page. *)
Fixpoint onStore {A} (x : Step LessonState A) (p : PageState)
    : Step PageState A :=
  match x with
  | Finished o s => Finished o {| store := s; toast := toast p |}
  | AwaitFetchLessons s k =>
      AwaitFetchLessons {| store := s; toast := toast p |}
        (λ r p', onStore (k r (store p')) p')
  | AwaitTakeClass lessonId s k =>
      AwaitTakeClass lessonId {| store := s; toast := toast p |}
        (λ r p', onStore (k r (store p')) p')
  end.

Definition setToast (t : option Toast) : Action PageState unit :=
  set_ (λ p, {| store := store p; toast := t |}).

Definition handleTakeClass (authState : AuthState) (lessonId : string)
    : Action PageState unit :=
  tryCatch
    (do! (λ p, onStore (takeClass authState lessonId (store p)) p) in
     setToast (Some {| message := "Successfully took the class!";
                       toastType := success |}))%action
    (λ error,
       setToast (Some {| message := match error with
                                    | ErrorObject message => message
                                    | OtherValue _ => "Failed to take class"
                                    end;
                         toastType := error_ |})).

End Page.

(** ** components/FilterBar *)

Module FilterBar.
Import Types LessonStore Dashboard.

Record MonthInfo : Type := {
  monthIndex : Z;
  year : Z;
  monthKey : string;
  monthName : option string;
  monthAbbr : option string
}.

(** [names[i]]: [undefined] outside the array. *)
Definition at_ (names : list string) (i : Z) : option string :=
  if i <? 0 then None else names !! Z.to_nat i.

(** The two loops that fill [months]. *)
Definition last12Months (tz : JSDate.TimeZone) (now : Z) : list MonthInfo :=
  let currentMonth := JSDate.startOfMonth tz now in
  let entry (date : Z) :=
    let year := JSDate.getFullYear tz date in
    let monthIndex := JSDate.getMonth tz date in
    {| monthIndex := monthIndex; year := year;
       monthKey := Format.yyyy_MM tz date;
       monthName := at_ Constants.MONTH_NAMES monthIndex;
       monthAbbr := at_ Constants.MONTH_ABBREVIATIONS monthIndex |} in
  ((λ i, entry (JSDate.subMonths tz currentMonth i))
     <$> reverse (seqZ 0 (MONTH_FILTER.MONTHS_BACK + 1)))
  ++ ((λ i, entry (JSDate.addMonths tz currentMonth i))
        <$> seqZ 1 MONTH_FILTER.MONTHS_FORWARD).

(** The three [useState] cells of the bar. *)
Record BarState : Type := {
  showDateRange : bool;
  startDate : string;
  endDate : string
}.

Section Handlers.

(** [new Date(s)] on the text of a date input. *)
Variable parseDate : string → JSDate.Date.

Variable availableMonths : gset string.


Definition handleDateRangeApply (s : FilterState * BarState)
    : FilterState * BarState :=
  if decide (startDate s.2 ≠ "" ∧ endDate s.2 ≠ "")
  then (handleDateRangeChange (Some (parseDate (startDate s.2)))
                              (Some (parseDate (endDate s.2))) s.1,
        {| showDateRange := false; startDate := startDate s.2;
           endDate := endDate s.2 |})
  else s.

Definition handleClearFilters (s : FilterState * BarState)
    : FilterState * BarState :=
  (handleDateRangeChange None None
     (handleMonthChange DATE_FILTER.CLEAR_MONTH_INDEX s.1),
   {| showDateRange := false; startDate := ""; endDate := "" |}).

(** [onChange] of the two date inputs. *)
Definition setStartDate (value : string) (s : FilterState * BarState)
    : FilterState * BarState :=
  (s.1, {| showDateRange := showDateRange s.2; startDate := value;
           endDate := endDate s.2 |}).

Definition setEndDate (value : string) (s : FilterState * BarState)
    : FilterState * BarState :=
  (s.1, {| showDateRange := showDateRange s.2; startDate := startDate s.2;
           endDate := value |}).

(** [onClick] of the 'Date Range' button, which shows or hides the two
    inputs. *)
Definition toggleDateRange (s : FilterState * BarState)
    : FilterState * BarState :=
  (s.1, {| showDateRange := negb (showDateRange s.2);
           startDate := startDate s.2; endDate := endDate s.2 |}).

(** The 'Clear Filters' button is rendered under
    [selectedMonth !== null || startDate || endDate]. *)
Definition showsClearFilters (s : FilterState * BarState) : bool :=
  bool_decide (selectedMonth s.1 ≠ None)
  || bool_decide (startDate s.2 ≠ "") || bool_decide (endDate s.2 ≠ "").

End Handlers.


End FilterBar.

(** ** Sample data: two lessons of the mock service and a signed-in tutor *)

Module Examples.
Import Types Async LessonStore.

(** 2025-11-08T10:00:00Z. *)
Definition L004 : Lesson :=
  {| id := "L004"; date := Some 1762596000000; type := Upcoming;
     subject := "Minecraft Redstone Logic"; students := ["Emma"; "Noah"];
     tutor := Some "Sarah Tan"; status := Confirmed |}.

(** 2025-11-12T11:00:00Z. *)
Definition L007 : Lesson :=
  {| id := "L007"; date := Some 1762945200000; type := Available;
     subject := "Python for Kids - Game Projects"; students := [];
     tutor := None; status := AvailableStatus |}.

Definition store : LessonState :=
  {| lessons := [L004; L007]; loading := false; error := None |}.

Definition auth : AuthState :=
  {| user := Some {| user_id := "1"; name := "Sarah Tan";
                     email := "sarah@example.com" |} |}.

(** A response that carries no field, and one that carries an empty tutor. *)
Definition noFields : PartialLesson :=
  {| r_id := None; r_date := None; r_type := None; r_subject := None;
     r_students := None; r_tutor := None; r_status := None |}.

Definition emptyTutor : PartialLesson :=
  {| r_id := None; r_date := None; r_type := None; r_subject := None;
     r_students := None; r_tutor := Some (Some ""); r_status := None |}.

(** 2025-11-02T11:37:00Z. *)
Definition now : Z := 1762083420000.

(** Africa/Cairo around the start of daylight saving time in 2025: at
    2025-04-24T22:00:00Z, local midnight of 25 April, the offset goes from
    +02:00 to +03:00, and the local times from 00:00 to 01:00 of that day
    are skipped. *)
Definition cairo : JSDate.TimeZone :=
  JSDate.transition 1745532000000 7200000 10800000.

(** America/New_York around the end of daylight saving time in 2025: at
    2025-11-02T06:00:00Z the offset goes from -04:00 to -05:00, and the
    local times from 01:00 to 02:00 of that day occur twice. *)
Definition newYork : JSDate.TimeZone :=
  JSDate.transition 1762063200000 (-14400000) (-18000000).

Definition quietDay : Z := 1746871200000.



End Examples.

(** ** More sample data: a lesson without a readable date, two
    configurations of the service, and the bar with a typed range *)

Module MoreExamples.
Import Types Async LessonStore Dashboard.

Definition undated : Lesson :=
  {| id := "L012"; date := None; type := Upcoming;
     subject := "Scratch Animation Club"; students := ["Ivy"];
     tutor := Some "Sarah Tan"; status := Confirmed |}.

Definition storeWithUndated : LessonState :=
  {| lessons := [Examples.L004; Examples.L007; undated];
     loading := false; error := None |}.

(** The store after a fetch from the mock service. *)
Definition fetched : LessonState :=
  {| lessons := Api.mockLessons; loading := false; error := None |}.

(** No base URL, and the mock flag spelled 'false'. *)
Definition mockEnv : Api.ImportMetaEnv :=
  {| Api.VITE_API_BASE_URL := None; Api.VITE_API_TIMEOUT := None;
     Api.VITE_USE_MOCK_API := Some "false" |}.

Definition liveEnv : Api.ImportMetaEnv :=
  {| Api.VITE_API_BASE_URL := Some "https://api.example.com";
     Api.VITE_API_TIMEOUT := None; Api.VITE_USE_MOCK_API := None |}.

(** A server that answers every request with 502. *)
Definition badGateway {A} (request : Api.Request)
    : Api.Raised + Api.Response A :=
  inr {| Api.ok := false; Api.statusText := "Bad Gateway";
         Api.json := inl Api.RaisedOther |}.

(** The entry of the bar for November 2025. *)
Definition november : FilterBar.MonthInfo :=
  {| FilterBar.monthIndex := 10; FilterBar.year := 2025;
     FilterBar.monthKey := "2025-11";
     FilterBar.monthName := Some "November";
     FilterBar.monthAbbr := Some "Nov" |}.

(** Midnight UTC of a day given as yyyy-mm-dd, for the two days used. *)
Definition parseDay (s : string) : JSDate.Date :=
  if decide (s = "2025-11-01") then Some 1761955200000
  else if decide (s = "2025-11-30") then Some 1764460800000
  else None.

Definition typedRange : FilterState * FilterBar.BarState :=
  (initial,
   {| FilterBar.showDateRange := true; FilterBar.startDate := "2025-11-01";
      FilterBar.endDate := "2025-11-30" |}).

End MoreExamples.


(** * Properties *)

(** In a zone with a fixed offset both conversions use that offset. *)
Ltac fixed_zone :=
  cbn [JSDate.offset JSDate.localOffset JSDate.fixed] in *.

(** ** The lesson store *)

Section StoreFacts.
Import Types Async LessonStore.

Implicit Types (st : LessonState) (lessonId : string) (lesson : Lesson).

Lemma lessonToTake_None ls lessonId :
  (∀ lesson, lesson ∈ ls → ¬ (id lesson = lessonId ∧ type lesson = Available)) →
  lessonToTake ls lessonId = None.
Proof.
  intros Hno. unfold lessonToTake.
  destruct (list_find _ ls) as [[i x]|] eqn:Hfind; [|done].
  apply list_find_Some in Hfind as (Hi & Hx & _).
  exfalso. eapply Hno; [|exact Hx]. by eapply list_elem_of_lookup_2.
Qed.

Lemma lessonToTake_Some ls lessonId lesson :
  lesson ∈ ls → id lesson = lessonId → type lesson = Available →
  ∃ l0, lessonToTake ls lessonId = Some l0
        ∧ l0 ∈ ls ∧ id l0 = lessonId ∧ type l0 = Available.
Proof.
  intros Hin Hid Hty. unfold lessonToTake.
  destruct (list_find _ ls) as [[i x]|] eqn:Hfind.
  - apply list_find_Some in Hfind as (Hi & [Hx1 Hx2] & _).
    exists x. split_and!; [done| |done..]. by eapply list_elem_of_lookup_2.
  - exfalso. eapply list_find_None in Hfind.
    rewrite Forall_forall in Hfind. by eapply Hfind.
Qed.

(** Once the guard has picked [l0], [takeClass] awaits the claim service
    on the untouched store; the continuation either patches the lessons
    it read before the call, or throws what the service threw. *)
Lemma takeClass_guarded authState lessonId st l0 :
  lessonToTake (lessons st) lessonId = Some l0 →
  ∃ k, takeClass authState lessonId st = AwaitTakeClass lessonId st k
       ∧ (∀ updatedLesson st',
            k (Fulfilled updatedLesson) st'
            = Finished (Returned tt)
                {| lessons :=
                     (λ lesson, if decide (id lesson = lessonId)
                                then finalLesson l0 updatedLesson authState
                                else lesson) <$> lessons st;
                   loading := loading st'; error := error st' |})
       ∧ (∀ e st', k (Rejected e) st' = Finished (Threw e) st').
Proof.
  intros Hl0. unfold takeClass, bind, get. simpl. rewrite Hl0.
  unfold tryCatch, bind, awaitTakeClass. simpl.
  eexists. split; [reflexivity|]. by split.
Qed.

End StoreFacts.

(** ** The calendar behind the date helpers *)

Section CalendarFacts.
Import JSDate.

Ltac div_lia := Z.to_euclidean_division_equations; lia.

Ltac case_if :=
  match goal with
  | |- context [ if ?b then _ else _ ] => destruct b eqn:?
  | H : context [ if ?b then _ else _ ] |- _ => destruct b eqn:?
  end.

Ltac case_goal_if :=
  match goal with
  | |- context [ if ?b then _ else _ ] => destruct b eqn:?
  end.

Lemma DaysInYear_cases y : DaysInYear y = 365 ∨ DaysInYear y = 366.
Proof. unfold DaysInYear. repeat case_if; auto. Qed.

Lemma DayFromYear_succ y : DayFromYear (y + 1) = DayFromYear y + DaysInYear y.
Proof. unfold DayFromYear, DaysInYear. repeat case_if; div_lia. Qed.

Lemma DayFromYear_mono y y' : y ≤ y' → DayFromYear y ≤ DayFromYear y'.
Proof. unfold DayFromYear. div_lia. Qed.

Lemma YearFromDay_spec d :
  DayFromYear (YearFromDay d) ≤ d < DayFromYear (YearFromDay d + 1).
Proof.
  unfold YearFromDay.
  set (y0 := 1970 + 400 * d / 146097).
  assert (146097 * (y0 - 1970) ≤ 400 * d < 146097 * (y0 - 1970) + 146097)
    by (unfold y0; div_lia).
  clearbody y0. unfold DayFromYear.
  repeat case_if; div_lia.
Qed.

Lemma YearFromDay_unique d y :
  DayFromYear y ≤ d < DayFromYear (y + 1) → YearFromDay d = y.
Proof.
  intros Hy. pose proof (YearFromDay_spec d) as Hs.
  destruct (Z.lt_trichotomy (YearFromDay d) y) as [Hlt|[->|Hgt]]; [|done|].
  - pose proof (DayFromYear_mono (YearFromDay d + 1) y). lia.
  - pose proof (DayFromYear_mono (y + 1) (YearFromDay d)). lia.
Qed.

Lemma DayWithinYear_bounds t : 0 ≤ DayWithinYear t < DaysInYear (YearFromTime t).
Proof.
  unfold DayWithinYear, YearFromTime.
  pose proof (YearFromDay_spec (Day t)) as Hs.
  rewrite DayFromYear_succ in Hs. lia.
Qed.

Lemma MonthFromTime_bounds t : 0 ≤ MonthFromTime t ≤ 11.
Proof. unfold MonthFromTime. repeat case_if; lia. Qed.

Lemma MakeDay_fields t :
  MakeDay (YearFromTime t) (MonthFromTime t) (DateFromTime t) = Day t.
Proof.
  pose proof (DayWithinYear_bounds t) as Hb.
  unfold MakeDay, DateFromTime.
  pose proof (MonthFromTime_bounds t) as Hm.
  replace (MonthFromTime t / 12) with 0 by div_lia.
  replace (MonthFromTime t mod 12) with (MonthFromTime t) by div_lia.
  rewrite Z.add_0_r. fold (InLeapYear t).
  unfold DayWithinYear in *.
  unfold MonthFromTime in *. 
  repeat case_if; simpl; lia.
Qed.

Local Abbreviation leapDay y := (if DaysInYear y =? 366 then 1 else 0).

Lemma firstDay_decomp y m :
  0 ≤ m ≤ 11 →
  firstDay (12 * y + m) = DayFromYear y + DaysBeforeMonth m (leapDay y).
Proof.
  intros Hm. unfold firstDay, MakeDay.
  replace (0 + (12 * y + m) / 12) with y by div_lia.
  replace ((12 * y + m) mod 12) with m by div_lia.
  lia.
Qed.

Lemma firstDay_next_year y :
  firstDay (12 * y + 12) = DayFromYear y + DaysInYear y.
Proof.
  replace (12 * y + 12) with (12 * (y + 1) + 0) by lia.
  rewrite firstDay_decomp by lia. rewrite DayFromYear_succ. simpl. lia.
Qed.

Lemma month_cases m :
  0 ≤ m ≤ 11 →
  m = 0 ∨ m = 1 ∨ m = 2 ∨ m = 3 ∨ m = 4 ∨ m = 5 ∨ m = 6 ∨ m = 7
  ∨ m = 8 ∨ m = 9 ∨ m = 10 ∨ m = 11.
Proof. lia. Qed.

Ltac month_split H :=
  apply month_cases in H;
  destruct H as [->|[->|[->|[->|[->|[->|[->|[->|[->|[->|[->| ->]]]]]]]]]]].

Lemma firstDay_succ k : firstDay k + 28 ≤ firstDay (k + 1) ≤ firstDay k + 31.
Proof.
  assert (Hk : k = 12 * (k / 12) + k mod 12) by div_lia.
  assert (Hm : 0 ≤ k mod 12 ≤ 11) by div_lia.
  revert Hk Hm. generalize (k / 12) (k mod 12). intros y m -> Hm.
  pose proof (DaysInYear_cases y) as Hy.
  month_split Hm.
  12: { replace (12 * y + 11 + 1) with (12 * y + 12) by lia.
        rewrite firstDay_next_year, firstDay_decomp by lia.
        simpl. destruct Hy as [Hy|Hy]; rewrite ?Hy; simpl; lia. }
  all: rewrite <- Z.add_assoc; rewrite !firstDay_decomp by lia;
    simpl; destruct Hy as [Hy|Hy]; rewrite ?Hy; simpl; lia.
Qed.

Lemma firstDay_mono k k' : k ≤ k' → firstDay k ≤ firstDay k'.
Proof.
  intros Hk. replace k' with (k + Z.of_nat (Z.to_nat (k' - k))) by lia.
  induction (Z.to_nat (k' - k)) as [|n IH]; [by rewrite Z.add_0_r|].
  replace (k + Z.of_nat (S n)) with (k + Z.of_nat n + 1) by lia.
  pose proof (firstDay_succ (k + Z.of_nat n)). lia.
Qed.

(** The calendar fields of a day that lies in absolute month [12 y + m]. *)
Lemma fields_in_month t y m :
  0 ≤ m ≤ 11 →
  firstDay (12 * y + m) ≤ Day t < firstDay (12 * y + m + 1) →
  YearFromTime t = y ∧ MonthFromTime t = m
  ∧ DateFromTime t = Day t - firstDay (12 * y + m) + 1.
Proof.
  intros Hm Hd.
  pose proof (DaysInYear_cases y) as Hy.
  assert (Hyear : YearFromTime t = y).
  { apply YearFromDay_unique. rewrite DayFromYear_succ.
    month_split Hm.
    12: { replace (12 * y + 11 + 1) with (12 * y + 12) in Hd by lia.
          rewrite firstDay_next_year, firstDay_decomp in Hd by lia.
          revert Hd. simpl.
          destruct Hy as [Hy|Hy]; rewrite ?Hy; simpl; lia. }
    all: rewrite <- Z.add_assoc in Hd; rewrite !firstDay_decomp in Hd by lia;
      revert Hd; simpl; destruct Hy as [Hy|Hy]; rewrite ?Hy; simpl; lia. }
  unfold DateFromTime, MonthFromTime, DayWithinYear, InLeapYear.
  rewrite Hyear.
  month_split Hm.
  12: { replace (12 * y + 11 + 1) with (12 * y + 12) in Hd by lia.
        rewrite firstDay_next_year in Hd. rewrite firstDay_decomp in * by lia.
        revert Hd. simpl.
        destruct Hy as [Hy|Hy]; rewrite ?Hy; simpl; intros; repeat case_if; lia. }
  all: rewrite <- Z.add_assoc in Hd; rewrite !firstDay_decomp in * by lia;
    revert Hd; simpl; destruct Hy as [Hy|Hy]; rewrite ?Hy; simpl;
    intros; repeat case_if; lia.
Qed.

Lemma fields_of_month t k :
  firstDay k ≤ Day t < firstDay (k + 1) →
  YearFromTime t = k / 12 ∧ MonthFromTime t = k mod 12
  ∧ DateFromTime t = Day t - firstDay k + 1.
Proof.
  assert (Hk : k = 12 * (k / 12) + k mod 12) by div_lia.
  assert (Hm : 0 ≤ k mod 12 ≤ 11) by div_lia.
  revert Hk Hm. generalize (k / 12) (k mod 12). intros y m -> Hm.
  by apply fields_in_month.
Qed.

Lemma absMonth_spec t :
  firstDay (absMonth t) ≤ Day t < firstDay (absMonth t + 1).
Proof.
  pose proof (MakeDay_fields t) as Hf.
  pose proof (MonthFromTime_bounds t) as Hm.
  assert (Hfd : firstDay (absMonth t) = Day t - DateFromTime t + 1).
  { unfold absMonth. rewrite firstDay_decomp by done.
    rewrite <- Hf. unfold MakeDay.
    replace (MonthFromTime t / 12) with 0 by div_lia.
    replace (MonthFromTime t mod 12) with (MonthFromTime t) by div_lia.
    rewrite Z.add_0_r. lia. }
  pose proof (DayWithinYear_bounds t) as Hb.
  pose proof (DaysInYear_cases (YearFromTime t)) as Hy.
  split.
  - rewrite Hfd. clear Hfd Hf. revert Hb.
    unfold DateFromTime, MonthFromTime, InLeapYear.
    repeat case_if; lia.
  - clear Hfd Hf. unfold absMonth. revert Hb Hm.
    unfold MonthFromTime, DayWithinYear.
    set (y := YearFromTime t) in *. set (l := InLeapYear t).
    assert (Hl : DaysInYear y = 365 + l ∧ l = leapDay y).
    { unfold l, InLeapYear. fold y. destruct Hy as [Hy|Hy]; by rewrite Hy. }
    destruct Hl as [Hy' Hl]. clearbody l y. intros Hb.
    repeat case_goal_if; intros _.
    12: { replace (12 * y + 11 + 1) with (12 * y + 12) by lia.
          rewrite firstDay_next_year. lia. }
    all: rewrite <- Z.add_assoc; rewrite firstDay_decomp by lia; simpl;
      rewrite <- ?Hl; lia.
Qed.

Lemma absMonth_unique t k :
  firstDay k ≤ Day t < firstDay (k + 1) → absMonth t = k.
Proof.
  intros Hk. pose proof (absMonth_spec t) as Hs.
  destruct (Z.lt_trichotomy (absMonth t) k) as [Hlt|[->|Hgt]]; [|done|].
  - pose proof (firstDay_mono (absMonth t + 1) k). lia.
  - pose proof (firstDay_mono (k + 1) (absMonth t)). lia.
Qed.

Lemma MakeDay_firstDay y m d : MakeDay y m d = firstDay (12 * y + m) + d - 1.
Proof.
  unfold firstDay, MakeDay.
  replace (0 + (12 * y + m) / 12) with (y + m / 12) by div_lia.
  replace ((12 * y + m) mod 12) with (m mod 12) by div_lia.
  lia.
Qed.

(** *** Local dates *)

Variable tza : Z.

Lemma Day_MakeDate d r : 0 ≤ r < msPerDay → Day (MakeDate d r) = d.
Proof. unfold Day, MakeDate, msPerDay. intros. div_lia. Qed.

Lemma TimeWithinDay_MakeDate d r :
  0 ≤ r < msPerDay → TimeWithinDay (MakeDate d r) = r.
Proof. unfold TimeWithinDay, MakeDate, msPerDay. intros. div_lia. Qed.

Lemma TimeWithinDay_bounds t : 0 ≤ TimeWithinDay t < msPerDay.
Proof. unfold TimeWithinDay, msPerDay. div_lia. Qed.

Lemma MakeDate_Day t : MakeDate (Day t) (TimeWithinDay t) = t.
Proof. unfold MakeDate, Day, TimeWithinDay, msPerDay. div_lia. Qed.

Lemma LocalTime_UTC t : LocalTime tza (UTC tza t) = t.
Proof. unfold LocalTime, UTC. fixed_zone. lia. Qed.

(** [d.setDate(d.getDate() + n)] moves a date by [n] whole days. *)
Lemma setDate_getDate_plus tv n :
  setDate tza tv (getDate tza tv + n) = tv + n * msPerDay.
Proof.
  unfold setDate, getDate. set (t := LocalTime tza tv).
  rewrite MakeDay_firstDay.
  pose proof (MakeDay_fields t) as Hf. rewrite MakeDay_firstDay in Hf.
  replace (firstDay _ + (DateFromTime t + n) - 1) with (Day t + n) by lia.
  pose proof (MakeDate_Day t) as Hd. revert Hd.
  unfold MakeDate, UTC, t, LocalTime. fixed_zone. lia.
Qed.

Lemma startOfMonth_local tv :
  LocalTime tza (startOfMonth tza tv)
  = MakeDate (firstDay (absMonth (LocalTime tza tv))) 0.
Proof.
  unfold startOfMonth, setHours, setDate. rewrite !LocalTime_UTC.
  rewrite Day_MakeDate by apply TimeWithinDay_bounds.
  by rewrite MakeDay_firstDay, Z.add_simpl_r.
Qed.

(** The fields of the first instant of absolute month [k]. *)
Lemma month_start_fields k d r :
  firstDay k ≤ d < firstDay (k + 1) → 0 ≤ r < msPerDay →
  YearFromTime (MakeDate d r) = k / 12
  ∧ MonthFromTime (MakeDate d r) = k mod 12
  ∧ DateFromTime (MakeDate d r) = d - firstDay k + 1.
Proof.
  intros Hd Hr. pose proof (Day_MakeDate d r Hr) as HD.
  destruct (fields_of_month (MakeDate d r) k) as (Hy & Hm & Hdt);
    [by rewrite HD|].
  rewrite HD in Hdt. done.
Qed.

(** [MakeDay] finds what ECMAScript asks for: day 1 of the month [m]
    carried into the year [y]. *)
Lemma MakeDay_first_of_month y m :
  YearFromTime (MakeDate (MakeDay y m 1) 0) = y + m / 12
  ∧ MonthFromTime (MakeDate (MakeDay y m 1) 0) = m mod 12
  ∧ DateFromTime (MakeDate (MakeDay y m 1) 0) = 1.
Proof.
  rewrite MakeDay_firstDay, Z.add_simpl_r.
  pose proof (firstDay_succ (12 * y + m)).
  destruct (month_start_fields (12 * y + m) (firstDay (12 * y + m)) 0)
    as (Hy & Hm & Hd); [lia|unfold msPerDay; lia|].
  rewrite Hy, Hm, Hd. split_and!; div_lia.
Qed.

Lemma addMonths_month_start tv k n :
  LocalTime tza tv = MakeDate (firstDay k) 0 →
  LocalTime tza (addMonths tza tv n) = MakeDate (firstDay (k + n)) 0.
Proof.
  intros Htv. unfold addMonths.
  destruct (n =? 0) eqn:Hn.
  { apply Z.eqb_eq in Hn as ->. by rewrite Z.add_0_r. }
  pose proof (firstDay_succ k) as Hk.
  pose proof (firstDay_succ (k + n)) as Hkn.
  assert (H0 : 0 ≤ 0 < msPerDay) by (unfold msPerDay; lia).
  destruct (month_start_fields k (firstDay k) 0) as (Hy & Hm & Hd);
    [lia|done|].
  unfold getDate, getMonth, getFullYear, setMonth, setFullYear.
  rewrite !LocalTime_UTC, !Htv, Hy, Hm, Hd.
  rewrite (TimeWithinDay_MakeDate _ 0) by done.
  rewrite (MakeDay_firstDay (k / 12)).
  replace (12 * (k / 12) + (k mod 12 + n + 1)) with (k + n + 1) by div_lia.
  destruct (month_start_fields (k + n) (firstDay (k + n + 1) + 0 - 1) 0)
    as (Hy' & Hm' & Hd'); [lia|done|].
  rewrite Hy', Hm', Hd'.
  destruct (_ <=? _) eqn:Hle; [lia|].
  rewrite LocalTime_UTC, MakeDay_firstDay.
  replace (12 * ((k + n) / 12) + (k + n) mod 12) with (k + n) by div_lia.
  f_equal; lia.
Qed.

Lemma endOfMonth_local tv :
  LocalTime tza (endOfMonth tza tv)
  = MakeDate (firstDay (absMonth (LocalTime tza tv) + 1)) 0 - 1.
Proof.
  unfold endOfMonth, setHours, setFullYear, getMonth, getFullYear.
  rewrite !LocalTime_UTC.
  rewrite Day_MakeDate by apply TimeWithinDay_bounds.
  rewrite MakeDay_firstDay.
  set (t := LocalTime tza tv).
  replace (12 * YearFromTime t + (MonthFromTime t + 1))
    with (absMonth t + 1) by (unfold absMonth; lia).
  unfold MakeDate, MakeTime, msPerDay, msPerHour, msPerMinute, msPerSecond.
  lia.
Qed.

(** A local time value lies in absolute month [k] exactly when it lies
    between the first and the last millisecond of that month. *)
Lemma absMonth_range t k :
  absMonth t = k
  ↔ MakeDate (firstDay k) 0 ≤ t ≤ MakeDate (firstDay (k + 1)) 0 - 1.
Proof.
  assert (Hday : ∀ d, (MakeDate d 0 ≤ t ↔ d ≤ Day t)
                      ∧ (t ≤ MakeDate d 0 - 1 ↔ Day t < d)).
  { intros d. unfold MakeDate, Day, msPerDay. split; div_lia. }
  destruct (Hday (firstDay k)) as [-> _].
  destruct (Hday (firstDay (k + 1))) as [_ ->].
  split; [intros <-; apply absMonth_spec | apply absMonth_unique].
Qed.
End CalendarFacts.

(** ** Claiming a lesson and fetching the collection *)

Section StoreProperties.
Import Types Async LessonStore.

Implicit Types (st : LessonState) (lessonId : string) (lesson : Lesson).

(** C1. When no lesson of the collection has the given id together with type
    [Available], [takeClass] throws the error 'Lesson not found or not
    available' at once: it finishes without awaiting the claim service, so
    no service call is made, and the store is the one it started from. *)
Theorem takeClass_guard_rejects authState lessonId st :
  (∀ lesson, lesson ∈ lessons st →
             ¬ (id lesson = lessonId ∧ type lesson = Available)) →
  takeClass authState lessonId st
  = Finished (Threw (ErrorObject "Lesson not found or not available")) st
  ∧ ∀ fetchLessons takeClassAPI,
      run fetchLessons takeClassAPI (takeClass authState lessonId st)
      = (Threw (ErrorObject "Lesson not found or not available"), st, []).
Proof.
  intros Hno. apply lessonToTake_None in Hno.
  assert (Hstep : takeClass authState lessonId st
                  = Finished (Threw (ErrorObject
                                       "Lesson not found or not available")) st).
  { unfold takeClass, bind, get. simpl. by rewrite Hno. }
  split; [done|]. intros fetchLessons takeClassAPI. by rewrite Hstep.
Qed.

(** C3. When the guard passes and the claim service rejects with [e],
    [takeClass] throws exactly [e]; the store is untouched while the call
    is pending and the continuation leaves whatever store it is resumed on
    as it is, so the collection after the failure is the one before the
    call. *)
Theorem takeClass_service_failure authState lessonId st lesson e :
  lesson ∈ lessons st → id lesson = lessonId → type lesson = Available →
  pending (takeClass authState lessonId st) = Some st
  ∧ (∃ k, takeClass authState lessonId st = AwaitTakeClass lessonId st k
          ∧ ∀ st', k (Rejected e) st' = Finished (Threw e) st')
  ∧ ∀ fetchLessons takeClassAPI,
      takeClassAPI lessonId = Rejected e →
      run fetchLessons takeClassAPI (takeClass authState lessonId st)
      = (Threw e, st, [CallTakeClass lessonId]).
Proof.
  intros Hin Hid Hty.
  destruct (lessonToTake_Some _ _ _ Hin Hid Hty) as (l0 & Hl0 & _).
  destruct (takeClass_guarded authState _ _ _ Hl0) as (k & Hk & _ & Hrej).
  rewrite Hk. split_and!; [done|by exists k|].
  intros fetchLessons takeClassAPI Hapi. simpl. by rewrite Hapi, Hrej.
Qed.


(** C8. [fetchLessonsData] first sets [loading] and clears [error], keeping
    the lessons: this is the store while the fetch is pending.  When the
    service answers, the lessons are replaced by the answer and [loading]
    is reset; when it fails, the message of the error (a fixed message for
    a thrown value that is no Error) is recorded, [loading] is reset and
    the lessons are the ones held before.  The action never throws. *)
Theorem fetchLessonsData_transitions st :
  pending (fetchLessonsData st)
  = Some {| lessons := lessons st; loading := true; error := None |}
  ∧ (∃ k, fetchLessonsData st
          = AwaitFetchLessons
              {| lessons := lessons st; loading := true; error := None |} k
          ∧ (∀ data st',
               k (Fulfilled data) st'
               = Finished (Returned tt)
                   {| lessons := data; loading := false; error := error st' |})
          ∧ (∀ e st',
               k (Rejected e) st'
               = Finished (Returned tt)
                   {| lessons := lessons st'; loading := false;
                      error := Some match e with
                                    | ErrorObject message => message
                                    | OtherValue _ =>
                                        "Failed to fetch lessons data"
                                    end |}))
  ∧ (∀ data takeClassAPI,
       run (Fulfilled data) takeClassAPI (fetchLessonsData st)
       = (Returned tt,
          {| lessons := data; loading := false; error := None |},
          [CallFetchLessons]))
  ∧ (∀ e takeClassAPI,
       run (Rejected e) takeClassAPI (fetchLessonsData st)
       = (Returned tt,
          {| lessons := lessons st; loading := false;
             error := Some match e with
                           | ErrorObject message => message
                           | OtherValue _ => "Failed to fetch lessons data"
                           end |},
          [CallFetchLessons])).
Proof.
  split_and!; [reflexivity| |intros; reflexivity|intros [m|v] ?; reflexivity].
  eexists. split; [reflexivity|]. split; [done|by intros [m|v]].
Qed.

End StoreProperties.

(** ** The filter engine *)

Section FilterProperties.
Import Types LessonStore.

Implicit Types (st : LessonState) (lesson : Lesson) (ls : list Lesson).

Lemma filter_largest_sublist {A} (P : A → Prop) `{∀ x, Decision (P x)}
    (l ls : list A) :
  ls `sublist_of` l → Forall P ls → ls `sublist_of` filter P l.
Proof.
  induction 1 as [|x l1 l2 Hsub IH|x l1 l2 Hsub IH]; intros HP.
  - apply sublist_nil_l.
  - apply Forall_cons in HP as [Hx HP].
    rewrite filter_cons_True by done. apply sublist_skip. auto.
  - rewrite filter_cons. destruct (decide (P x)); [apply sublist_cons|]; auto.
Qed.

Lemma in_date_range (date : JSDate.Date) (start end_ : Z) :
  JSDate.ge date (Some start) ∧ JSDate.le date (Some end_)
  ↔ ∃ d, date = Some d ∧ start ≤ d ≤ end_.
Proof.
  unfold JSDate.ge, JSDate.le. destruct date as [d|]; simpl.
  - split; [intros [??]; exists d; by split_and!|].
    intros (? & [= <-] & ? & ?). done.
  - split; [by intros []|by intros (? & [=] & _)].
Qed.

(** C6. Filtering by one of the three lesson types returns exactly the
    lessons of that type (the largest sublist of the collection whose
    lessons all have the type), in the order of the collection, and
    filtering the result again by the same type changes nothing. *)
Theorem filteredLessons_by_type (tza : Z) now st t :
  let result := filteredLessons tza now st (Some (OfType t)) None in
  (∀ lesson, lesson ∈ result ↔ lesson ∈ lessons st ∧ type lesson = t)
  ∧ result `sublist_of` lessons st
  ∧ (∀ ls, ls `sublist_of` lessons st →
           Forall (λ lesson, type lesson = t) ls → ls `sublist_of` result)
  ∧ filteredLessons tza now
      {| lessons := result; loading := loading st; error := error st |}
      (Some (OfType t)) None
    = result.
Proof.
  unfold filteredLessons. simpl. split_and!.
  - intros lesson. rewrite list_elem_of_filter. tauto.
  - apply sublist_filter.
  - intros ls. apply filter_largest_sublist.
  - by apply list_filter_filter_l.
Qed.

(** C7. The membership test [lessonDate >= start && lessonDate <= end_]
    holds exactly when the date [d] of the lesson satisfies
    [start <= d <= end_], both comparisons non-strict.  The date-range
    filter of the utilities keeps exactly the lessons of the list that pass
    it, the date-range step of the store exactly the lessons of the store
    that pass it (and have the selected type, when one is given).  So a
    range with [start <= end_] keeps a lesson dated exactly [start] or
    exactly [end_], and a range with [end_ < start] keeps nothing. *)
Theorem date_range_inclusive (tz : JSDate.TimeZone) now st ls
    (start end_ : Z) :
  (∀ l, JSDate.ge (date l) (Some start) ∧ JSDate.le (date l) (Some end_)
        ↔ ∃ d, date l = Some d ∧ start ≤ d ≤ end_)
  ∧ (∀ l, l ∈ Utils.filterLessonsByDateRange ls (Some start) (Some end_)
          ↔ l ∈ ls ∧ ∃ d, date l = Some d ∧ start ≤ d ≤ end_)
  ∧ (∀ l, l ∈ filteredLessons tz now st None (Some (Some start, Some end_))
          ↔ l ∈ lessons st ∧ ∃ d, date l = Some d ∧ start ≤ d ≤ end_)
  ∧ (∀ t l, l ∈ filteredLessons tz now st (Some (OfType t))
                  (Some (Some start, Some end_))
            ↔ l ∈ lessons st ∧ type l = t
              ∧ ∃ d, date l = Some d ∧ start ≤ d ≤ end_)
  ∧ (∀ type_ l, l ∈ filteredLessons tz now st type_
                      (Some (Some start, Some end_))
                ↔ l ∈ filteredLessons tz now st type_ None
                  ∧ ∃ d, date l = Some d ∧ start ≤ d ≤ end_)
  ∧ (start ≤ end_ →
     ∀ lesson,
       date lesson = Some start ∨ date lesson = Some end_ →
       (JSDate.ge (date lesson) (Some start)
        ∧ JSDate.le (date lesson) (Some end_))
       ∧ (lesson ∈ ls →
          lesson ∈ Utils.filterLessonsByDateRange ls (Some start) (Some end_))
       ∧ (lesson ∈ lessons st →
          lesson ∈ filteredLessons tz now st None
                     (Some (Some start, Some end_))
          ∧ lesson ∈ filteredLessons tz now st (Some (OfType (type lesson)))
                       (Some (Some start, Some end_))))
  ∧ (end_ < start →
     Utils.filterLessonsByDateRange ls (Some start) (Some end_) = []
     ∧ ∀ type_,
         filteredLessons tz now st type_ (Some (Some start, Some end_)) = []).
Proof.
  assert (Hutil : ∀ l, l ∈ Utils.filterLessonsByDateRange ls (Some start) (Some end_)
                       ↔ l ∈ ls ∧ ∃ d, date l = Some d ∧ start ≤ d ≤ end_).
  { intros l. unfold Utils.filterLessonsByDateRange.
    rewrite list_elem_of_filter. cbv beta zeta. rewrite in_date_range. tauto. }
  assert (Hstep : ∀ type_ l,
            l ∈ filteredLessons tz now st type_ (Some (Some start, Some end_))
            ↔ l ∈ filteredLessons tz now st type_ None
              ∧ ∃ d, date l = Some d ∧ start ≤ d ≤ end_).
  { intros type_ l. unfold filteredLessons.
    rewrite list_elem_of_filter. cbv beta zeta. rewrite in_date_range. tauto. }
  assert (Hall : ∀ l, l ∈ filteredLessons tz now st None
                            (Some (Some start, Some end_))
                      ↔ l ∈ lessons st ∧ ∃ d, date l = Some d ∧ start ≤ d ≤ end_).
  { intros l. by rewrite Hstep. }
  assert (Htyped : ∀ t l, l ∈ filteredLessons tz now st (Some (OfType t))
                                (Some (Some start, Some end_))
                          ↔ l ∈ lessons st ∧ type l = t
                            ∧ ∃ d, date l = Some d ∧ start ≤ d ≤ end_).
  { intros t l. rewrite Hstep. unfold filteredLessons. cbv zeta.
    rewrite list_elem_of_filter. tauto. }
  refine (conj (λ l, in_date_range _ _ _)
            (conj Hutil (conj Hall (conj Htyped (conj Hstep (conj _ _)))))).
  - intros Hrange lesson Hdate.
    assert (Htest : ∃ d, date lesson = Some d ∧ start ≤ d ≤ end_)
      by (destruct Hdate; eexists; split; [done|lia|done|lia]).
    split; [by apply in_date_range|]. split; intros Hin.
    + by apply Hutil.
    + split; [by apply Hall|by apply Htyped].
  - intros Hinv. split.
    + apply elem_of_nil_inv. intros l [_ (d & _ & ?)]%Hutil. lia.
    + intros type_. apply elem_of_nil_inv.
      intros l [_ (d & _ & ?)]%Hstep. lia.
Qed.

(** Inside a window in which the zone keeps the offset [o], both
    conversions are those of the zone with the fixed offset [o]. *)
Lemma steady_fixed (tza lo hi : Z) : JSDate.steady tza tza lo hi.
Proof. by intros t _. Qed.

Lemma LocalTime_steady (tz : JSDate.TimeZone) o lo hi t :
  JSDate.steady tz o lo hi → lo ≤ t ≤ hi → JSDate.LocalTime tz t = t + o.
Proof.
  intros Hs Ht. unfold JSDate.LocalTime. by destruct (Hs t Ht) as [-> _].
Qed.

Lemma UTC_steady (tz : JSDate.TimeZone) o lo hi l :
  JSDate.steady tz o lo hi → lo ≤ l - o ≤ hi → JSDate.UTC tz l = l - o.
Proof.
  intros Hs Hl. unfold JSDate.UTC. destruct (Hs (l - o) Hl) as [_ Hback].
  replace (l - o + o) with l in Hback by lia. by rewrite Hback.
Qed.

(** A zone that keeps its offset for a day before and after [now]: the
    store's [today] is local midnight of the day of [now], its [tomorrow]
    is one day later, and the day of the utilities ends one millisecond
    before that. *)
Lemma today_bounds (tz : JSDate.TimeZone) o now :
  JSDate.steady tz o (now - JSDate.msPerDay) (now + JSDate.msPerDay) →
  let today := JSDate.setHours tz now 0 0 0 0 in
  JSDate.setDate tz today (JSDate.getDate tz today + 1)
  = today + JSDate.msPerDay
  ∧ JSDate.endOfDay tz now = today + JSDate.msPerDay - 1
  ∧ JSDate.startOfDay tz now = today
  ∧ JSDate.LocalTime tz today
    = JSDate.MakeDate (JSDate.Day (JSDate.LocalTime tz now)) 0.
Proof.
  intros Hs today.
  assert (Hnow : JSDate.LocalTime tz now = now + o).
  { apply (LocalTime_steady _ _ _ _ _ Hs). unfold JSDate.msPerDay. lia. }
  assert (Hset : ∀ time, 0 ≤ time < JSDate.msPerDay →
            JSDate.UTC tz (JSDate.MakeDate (JSDate.Day (now + o)) time)
            = JSDate.MakeDate (JSDate.Day (now + o)) time - o).
  { intros time Htime. apply (UTC_steady _ _ _ _ _ Hs). revert Htime.
    unfold JSDate.MakeDate, JSDate.Day, JSDate.msPerDay. intros.
    Z.to_euclidean_division_equations; lia. }
  assert (Htoday : today = JSDate.MakeDate (JSDate.Day (now + o)) 0 - o).
  { unfold today, JSDate.setHours. cbv zeta. rewrite Hnow.
    change (JSDate.MakeTime 0 0 0 0) with 0. apply Hset.
    unfold JSDate.msPerDay. lia. }
  assert (Hwin : now - JSDate.msPerDay ≤ today ≤ now
                 ∧ today + JSDate.msPerDay ≤ now + JSDate.msPerDay).
  { rewrite Htoday. unfold JSDate.MakeDate, JSDate.Day, JSDate.msPerDay.
    Z.to_euclidean_division_equations; lia. }
  assert (Hloc : JSDate.LocalTime tz today = today + o).
  { apply (LocalTime_steady _ _ _ _ _ Hs). unfold JSDate.msPerDay in *. lia. }
  split_and!.
  - pose proof (setDate_getDate_plus o today 1) as Hfixed. revert Hfixed.
    unfold JSDate.setDate, JSDate.getDate. cbv zeta.
    rewrite Hloc. unfold JSDate.LocalTime at 1 2 3 4, JSDate.UTC at 1.
    fixed_zone. intros Hfixed.
    rewrite (UTC_steady _ _ _ _ _ Hs); [lia|].
    unfold JSDate.msPerDay in *. lia.
  - unfold JSDate.endOfDay, JSDate.setHours. cbv zeta. rewrite Hnow, Hset.
    + rewrite Htoday. unfold JSDate.MakeDate, JSDate.MakeTime,
        JSDate.msPerDay, JSDate.msPerHour, JSDate.msPerMinute,
        JSDate.msPerSecond. lia.
    + unfold JSDate.MakeTime, JSDate.msPerDay, JSDate.msPerHour,
        JSDate.msPerMinute, JSDate.msPerSecond. lia.
  - done.
  - rewrite Hloc, Hnow, Htoday. lia.
Qed.

Lemma today_predicates_agree (tz : JSDate.TimeZone) o now
    (date : JSDate.Date) :
  JSDate.steady tz o (now - JSDate.msPerDay) (now + JSDate.msPerDay) →
  let today := JSDate.setHours tz now 0 0 0 0 in
  let tomorrow := JSDate.setDate tz today (JSDate.getDate tz today + 1) in
  JSDate.ge date (Some today) ∧ JSDate.lt date (Some tomorrow)
  ↔ JSDate.ge date (Some (JSDate.startOfDay tz now))
    ∧ JSDate.le date (Some (JSDate.endOfDay tz now)).
Proof.
  intros Hs today tomorrow.
  destruct (today_bounds tz o now Hs) as (Htom & Hend & Hstart & _).
  fold today in Htom, Hend, Hstart. fold tomorrow in Htom.
  rewrite Htom, Hend, Hstart.
  unfold JSDate.ge, JSDate.le, JSDate.lt. destruct date as [d|]; simpl; lia.
Qed.



End FilterProperties.

(** ** The filter selection of the Dashboard and its month window *)

Section DashboardProperties.
Import Types LessonStore Dashboard.

Implicit Types (fs : FilterState) (st : LessonState) (lesson : Lesson).

(** C9. In every state reached from the initial selection by the page's
    handlers the month index and the date range are not both set; and from
    any state, selecting a month leaves that month and no range, selecting
    a complete range leaves that range and no month, and clearing leaves
    neither. *)
Theorem filter_selection_exclusive fs :
  reachable fs →
  ¬ (is_Some (selectedMonth fs) ∧ is_Some (dateRange fs))
  ∧ (∀ monthIndex,
       monthIndex ≠ DATE_FILTER.CLEAR_MONTH_INDEX →
       handleMonthChange monthIndex fs
       = {| selectedMonth := Some monthIndex; dateRange := None |})
  ∧ (∀ start end_,
       handleDateRangeChange (Some start) (Some end_) fs
       = {| selectedMonth := None; dateRange := Some (start, end_) |})
  ∧ handleClearFilters fs = initial.
Proof.
  intros Hreach. split_and!.
  - induction Hreach as [|a fs Hreach IH].
    + simpl. by intros [[? [=]] _].
    + destruct a as [monthIndex|[start|] [end_|]|]; simpl;
        unfold handleClearFilters, handleMonthChange, handleDateRangeChange;
        repeat case_decide; simpl;
        intros [Hm Hr]; by (apply is_Some_None in Hm || apply is_Some_None in Hr).
  - intros monthIndex Hne. unfold handleMonthChange. by case_decide.
  - done.
  - unfold handleClearFilters, handleMonthChange. by case_decide.
Qed.

Lemma targetDate_local (tza : Z) now selectedMonth :
  JSDate.LocalTime tza (targetDate tza now selectedMonth)
  = JSDate.MakeDate
      (JSDate.firstDay (JSDate.absMonth (JSDate.LocalTime tza now)
                        + (selectedMonth - 5))) 0.
Proof.
  unfold targetDate, JSDate.subMonths, MONTH_FILTER.MONTHS_BACK.
  pose proof (startOfMonth_local tza now) as Hcur.
  case_decide.
  - rewrite (addMonths_month_start tza _ _ _ Hcur). do 3 f_equal. lia.
  - by rewrite (addMonths_month_start tza _ _ _ Hcur).
Qed.

Lemma month_start_absMonth k :
  JSDate.absMonth (JSDate.MakeDate (JSDate.firstDay k) 0) = k.
Proof.
  apply absMonth_range. pose proof (firstDay_succ k).
  unfold JSDate.MakeDate, JSDate.msPerDay. lia.
Qed.


End DashboardProperties.

(** ** The properties on the sample data *)

Section Instances.
Import Types Async LessonStore Dashboard Examples.

Lemma takeClass_guard_rejects_example :
  run (Fulfilled []) (λ _, Fulfilled noFields) (takeClass auth "L004" store)
  = (Threw (ErrorObject "Lesson not found or not available"), store, []).
Proof.
  apply (takeClass_guard_rejects auth "L004" store).
  intros lesson Hin [Hid Hty]. simpl in Hin.
  apply elem_of_cons in Hin as [->|Hin]; [discriminate Hty|].
  apply elem_of_cons in Hin as [->|Hin]; [discriminate Hid|].
  by apply elem_of_nil in Hin.
Defined.

Lemma takeClass_service_failure_example :
  run (Fulfilled [])
      (λ _, Rejected (ErrorObject "Failed to take class: Bad Gateway"))
      (takeClass auth "L007" store)
  = (Threw (ErrorObject "Failed to take class: Bad Gateway"), store,
     [CallTakeClass "L007"]).
Proof.
  destruct (takeClass_service_failure auth "L007" store L007
              (ErrorObject "Failed to take class: Bad Gateway"))
    as (_ & _ & Hrun).
  - simpl. apply list_elem_of_further, list_elem_of_here.
  - reflexivity.
  - reflexivity.
  - by apply Hrun.
Defined.



Lemma date_range_inclusive_example :
  L007 ∈ Utils.filterLessonsByDateRange [L004; L007]
           (Some 1762945200000) (Some 1762991999000)
  ∧ L007 ∈ filteredLessons 0 now store (Some (OfType Available))
             (Some (Some 1762945200000, Some 1762991999000)).
Proof.
  destruct (date_range_inclusive 0 now store [L004; L007]
              1762945200000 1762991999000) as (_ & _ & _ & _ & _ & Hends & _).
  destruct (Hends ltac:(lia) L007) as (_ & Hutil & Hstore).
  - left. reflexivity.
  - split.
    + apply Hutil, list_elem_of_further, list_elem_of_here.
    + apply Hstore. simpl. apply list_elem_of_further, list_elem_of_here.
Defined.

(** C7, a start and an end for which the boundary lesson is dropped.
    The lesson is dated exactly at the start of the range, and the end of
    the range lies one millisecond before its start: the test fails on it
    and neither filter keeps it. *)
Lemma date_range_inverted_drops_boundary :
  date L007 = Some 1762945200000
  ∧ ¬ (JSDate.ge (date L007) (Some 1762945200000)
       ∧ JSDate.le (date L007) (Some 1762945199999))
  ∧ Utils.filterLessonsByDateRange [L004; L007]
      (Some 1762945200000) (Some 1762945199999) = []
  ∧ filteredLessons 0 now store None
      (Some (Some 1762945200000, Some 1762945199999)) = [].
Proof.
  split_and!; [reflexivity| |reflexivity|reflexivity].
  unfold JSDate.ge, JSDate.le. simpl. lia.
Qed.





Lemma filter_selection_exclusive_example :
  ¬ (is_Some (selectedMonth
                (apply (SelectDateRange (Some (Some 1762905600000))
                                        (Some (Some 1762991999000)))
                       (apply (SelectMonth 3) initial)))
     ∧ is_Some (dateRange
                  (apply (SelectDateRange (Some (Some 1762905600000))
                                          (Some (Some 1762991999000)))
                         (apply (SelectMonth 3) initial)))).
Proof.
  apply filter_selection_exclusive.
  apply reachable_step, reachable_step, reachable_initial.
Defined.


(** The calendar on known dates: the epoch, 2000-02-29T12:00:00Z,
    2024-12-31T23:59:59Z and the last second of 1969. *)
Example calendar_fields_known_dates :
  (JSDate.YearFromTime 0, JSDate.MonthFromTime 0, JSDate.DateFromTime 0)
  = (1970, 0, 1)
  ∧ (JSDate.YearFromTime 951825600000, JSDate.MonthFromTime 951825600000,
     JSDate.DateFromTime 951825600000) = (2000, 1, 29)
  ∧ (JSDate.YearFromTime 1735689599000, JSDate.MonthFromTime 1735689599000,
     JSDate.DateFromTime 1735689599000) = (2024, 11, 31)
  ∧ (JSDate.YearFromTime (-1000), JSDate.MonthFromTime (-1000),
     JSDate.DateFromTime (-1000)) = (1969, 11, 31).
Proof. by vm_compute. Qed.

(** On 2025-11-02 (UTC) slot 5 is November 2025, slot 0 is June 2025 and
    slot 11 is May 2026. *)
Example month_window_known_slots :
  Utils.getMonthRange 0 (targetDate 0 now 5) = (1761955200000, 1764547199999)
  ∧ Utils.getMonthRange 0 (targetDate 0 now 0) = (1748736000000, 1751327999999)
  ∧ Utils.getMonthRange 0 (targetDate 0 now 11)
    = (1777593600000, 1780271999999).
Proof. by vm_compute. Qed.

(** On 2025-11-02 (UTC) today runs from 00:00:00.000 to 23:59:59.999. *)
Example today_range_known_day :
  Utils.getTodayRange 0 now = (1762041600000, 1762127999999).
Proof. by vm_compute. Qed.

(** In New York the same day has 25 hours: it runs from 04:00:00.000Z to
    04:59:59.999Z of the next day. *)
Example today_range_long_day :
  Utils.getTodayRange newYork now = (1762056000000, 1762145999999).
Proof. by vm_compute. Qed.

End Instances.

(** * Further properties of the code *)

(** ** The date helpers and the buckets of the page *)

Section UtilsMore.
Import Types LessonStore.

Implicit Types (st : LessonState) (lesson : Lesson) (ls : list Lesson).

Lemma same_day_range (tza : Z) now d :
  JSDate.startOfDay tza now ≤ d ≤ JSDate.endOfDay tza now
  ↔ JSDate.Day (JSDate.LocalTime tza d) = JSDate.Day (JSDate.LocalTime tza now).
Proof.
  unfold JSDate.startOfDay, JSDate.endOfDay, JSDate.setHours, JSDate.UTC,
    JSDate.MakeDate, JSDate.MakeTime, JSDate.LocalTime, JSDate.Day,
    JSDate.msPerDay, JSDate.msPerHour, JSDate.msPerMinute, JSDate.msPerSecond.
  fixed_zone. Z.to_euclidean_division_equations; lia.
Qed.

(** X1. [isToday] holds of a date exactly when the date is valid and falls on
    the local calendar day of [now]; and [filterTodayLessons] keeps exactly
    the lessons whose date passes [isToday]. *)
Theorem isToday_same_local_day (tza : Z) now (date : JSDate.Date) ls lesson :
  (Utils.isToday tza now date = true
   ↔ ∃ d, date = Some d
          ∧ JSDate.Day (JSDate.LocalTime tza d)
            = JSDate.Day (JSDate.LocalTime tza now))
  ∧ (lesson ∈ Utils.filterTodayLessons tza now ls
     ↔ lesson ∈ ls ∧ Utils.isToday tza now (Types.date lesson) = true).
Proof.
  assert (Hday : Utils.isToday tza now date = true
   ↔ ∃ d, date = Some d
          ∧ JSDate.Day (JSDate.LocalTime tza d)
            = JSDate.Day (JSDate.LocalTime tza now)).
  { unfold Utils.isToday, Utils.getTodayRange. rewrite bool_decide_eq_true.
    rewrite in_date_range. by setoid_rewrite same_day_range. }
  split; [done|].
  unfold Utils.filterTodayLessons, Utils.filterLessonsByDateRange,
    Utils.isToday. unfold Utils.getTodayRange. cbv beta iota zeta.
  rewrite list_elem_of_filter, bool_decide_eq_true. tauto.
Qed.

Lemma local_order (tza : Z) a b :
  JSDate.UTC tza a ≤ b ↔ a ≤ JSDate.LocalTime tza b.
Proof. unfold JSDate.UTC, JSDate.LocalTime. fixed_zone. lia. Qed.


End UtilsMore.

Section StoreMore.
Import Types Async LessonStore Dashboard.

Implicit Types (st : LessonState) (fs : FilterState) (lesson : Lesson)
  (ls : list Lesson).

Lemma filter_none {A} (P : A → Prop) `{∀ x, Decision (P x)} (l : list A) :
  (∀ x, x ∈ l → ¬ P x) → filter P l = [].
Proof.
  induction l as [|x l IH]; intros HP; [done|].
  rewrite filter_cons_False by (apply HP; left).
  apply IH. intros y Hy. apply HP. by right.
Qed.

Lemma filter_comm {A} (P Q : A → Prop) `{∀ x, Decision (P x)}
    `{∀ x, Decision (Q x)} (l : list A) :
  filter P (filter Q l) = filter Q (filter P l).
Proof. rewrite !list_filter_filter. apply list_filter_iff. tauto. Qed.

(** X3. A range with an Invalid Date as a bound, or with its end before its
    start, selects nothing: both date-range filters return the empty list
    instead of failing. *)
Theorem date_range_degenerate (tza : Z) now st type_ ls (start end_ : JSDate.Date) :
  start = None ∨ end_ = None ∨ JSDate.lt end_ start →
  Utils.filterLessonsByDateRange ls start end_ = []
  ∧ filteredLessons tza now st type_ (Some (start, end_)) = [].
Proof.
  intros Hbad.
  assert (Hno : ∀ lesson,
            ¬ (JSDate.ge (date lesson) start ∧ JSDate.le (date lesson) end_)).
  { intros lesson. unfold JSDate.ge, JSDate.le, JSDate.lt in *.
    destruct (date lesson), start, end_; simpl in *;
      destruct Hbad as [?|[?|?]]; try done; lia. }
  split.
  - apply filter_none. auto.
  - unfold filteredLessons. apply filter_none. auto.
Qed.

Lemma getMonthRange_spec (tza : Z) x :
  Utils.getMonthRange tza x
  = (JSDate.UTC tza (JSDate.MakeDate (JSDate.firstDay
       (JSDate.absMonth (JSDate.LocalTime tza x))) 0),
     JSDate.UTC tza (JSDate.MakeDate (JSDate.firstDay
       (JSDate.absMonth (JSDate.LocalTime tza x) + 1)) 0 - 1)).
Proof.
  unfold Utils.getMonthRange.
  pose proof (startOfMonth_local tza x) as Hs.
  pose proof (endOfMonth_local tza x) as He. revert Hs He.
  unfold JSDate.LocalTime, JSDate.UTC. fixed_zone. intros Hs He. f_equal; lia.
Qed.

Lemma in_month_range (tza : Z) x d :
  (Utils.getMonthRange tza x).1 ≤ d ≤ (Utils.getMonthRange tza x).2
  ↔ JSDate.absMonth (JSDate.LocalTime tza d)
    = JSDate.absMonth (JSDate.LocalTime tza x).
Proof.
  rewrite getMonthRange_spec. cbn [fst snd].
  rewrite absMonth_range. unfold JSDate.LocalTime, JSDate.UTC. fixed_zone. lia.
Qed.

Lemma targetDate_absMonth (tza : Z) now i :
  JSDate.absMonth (JSDate.LocalTime tza (targetDate tza now i))
  = JSDate.absMonth (JSDate.LocalTime tza now) + (i - 5).
Proof. rewrite targetDate_local. apply month_start_absMonth. Qed.

(** The month step of the page as a predicate on a lesson. *)
Lemma month_step (tza : Z) now i ls lesson :
  lesson ∈ (let '(monthStart, monthEnd) :=
              Utils.getMonthRange tza (targetDate tza now i) in
            Utils.filterLessonsByDateRange ls (Some monthStart) (Some monthEnd))
  ↔ lesson ∈ ls
    ∧ ∃ d, date lesson = Some d
           ∧ JSDate.absMonth (JSDate.LocalTime tza d)
             = JSDate.absMonth (JSDate.LocalTime tza now) + (i - 5).
Proof.
  pose proof (in_month_range tza (targetDate tza now i)) as Hin.
  rewrite targetDate_absMonth in Hin.
  destruct (Utils.getMonthRange tza (targetDate tza now i)) as [a b].
  cbn [fst snd] in Hin. unfold Utils.filterLessonsByDateRange.
  rewrite list_elem_of_filter. cbv beta zeta. rewrite in_date_range.
  split.
  - intros [(d & Hd & Hr) Hl]. split; [done|]. exists d. by rewrite <- Hin.
  - intros [Hl (d & Hd & Hr)]. split; [|done]. exists d. by rewrite Hin.
Qed.

Lemma absMonth_Day a b :
  JSDate.Day a = JSDate.Day b → JSDate.absMonth a = JSDate.absMonth b.
Proof.
  intros H. unfold JSDate.absMonth, JSDate.MonthFromTime, JSDate.DayWithinYear,
    JSDate.InLeapYear, JSDate.YearFromTime. by rewrite H.
Qed.


Lemma today_store_iff (tza : Z) now ls lesson :
  lesson ∈ filter (λ lesson,
             let lessonDate := date lesson in
             JSDate.ge lessonDate (Some (JSDate.setHours tza now 0 0 0 0))
             ∧ JSDate.lt lessonDate
                 (Some (JSDate.setDate tza (JSDate.setHours tza now 0 0 0 0)
                          (JSDate.getDate tza (JSDate.setHours tza now 0 0 0 0)
                           + 1)))) ls
  ↔ lesson ∈ ls
    ∧ ∃ d, date lesson = Some d
           ∧ JSDate.Day (JSDate.LocalTime tza d)
             = JSDate.Day (JSDate.LocalTime tza now).
Proof.
  rewrite list_elem_of_filter. cbv beta zeta.
  rewrite (today_predicates_agree tza tza now _ (steady_fixed _ _ _)),
    in_date_range.
  setoid_rewrite same_day_range. tauto.
Qed.

Lemma today_utils_iff (tza : Z) now ls lesson :
  lesson ∈ Utils.filterTodayLessons tza now ls
  ↔ lesson ∈ ls
    ∧ ∃ d, date lesson = Some d
           ∧ JSDate.Day (JSDate.LocalTime tza d)
             = JSDate.Day (JSDate.LocalTime tza now).
Proof.
  unfold Utils.filterTodayLessons, Utils.getTodayRange,
    Utils.filterLessonsByDateRange. cbv beta iota zeta.
  rewrite list_elem_of_filter, in_date_range.
  setoid_rewrite same_day_range. tauto.
Qed.

(** X5. In a zone that keeps its offset for a day before and after [now],
    for every selection, the bucket the page computes for today's lessons
    with [getTodayLessons] is the list [getFilteredLessonsByType] returns
    for 'Today', although the two apply the month and the range filter in
    opposite orders. *)
Theorem today_bucket_two_routes (tz : JSDate.TimeZone) o now st fs :
  JSDate.steady tz o (now - JSDate.msPerDay) (now + JSDate.msPerDay) →
  getFilteredLessonsByType tz now st fs Today = getTodayLessons tz now st fs.
Proof.
  intros Hs.
  unfold getFilteredLessonsByType, getTodayLessons, filteredLessons,
    Utils.filterTodayLessons, Utils.getTodayRange.
  cbv beta iota zeta.
  assert (Htoday : ∀ ls,
    filter (λ lesson,
              let lessonDate := date lesson in
              JSDate.ge lessonDate (Some (JSDate.setHours tz now 0 0 0 0))
              ∧ JSDate.lt lessonDate
                  (Some (JSDate.setDate tz (JSDate.setHours tz now 0 0 0 0)
                           (JSDate.getDate tz (JSDate.setHours tz now 0 0 0 0)
                            + 1)))) ls
    = Utils.filterLessonsByDateRange ls (Some (JSDate.startOfDay tz now))
        (Some (JSDate.endOfDay tz now))).
  { intros ls. apply list_filter_iff. intros x.
    apply (today_predicates_agree tz o now _ Hs). }
  rewrite Htoday.
  destruct (selectedMonth fs) as [i|], (Dashboard.dateRange fs) as [[a b]|];
    try done.
  destruct (Utils.getMonthRange tz (targetDate tz now i)) as [ms me].
  unfold Utils.filterLessonsByDateRange. apply filter_comm.
Qed.

Lemma filter_all {A} (P : A → Prop) `{∀ x, Decision (P x)} (l : list A) :
  (∀ x, x ∈ l → P x) → filter P l = l.
Proof.
  induction l as [|x l IH]; intros HP; [done|].
  rewrite filter_cons_True by (apply HP; left).
  f_equal. apply IH. intros y Hy. apply HP. by right.
Qed.

Lemma same_day_same_month (tza : Z) now (d : Z) :
  JSDate.Day (JSDate.LocalTime tza d) = JSDate.Day (JSDate.LocalTime tza now) →
  JSDate.absMonth (JSDate.LocalTime tza d)
  = JSDate.absMonth (JSDate.LocalTime tza now).
Proof. apply absMonth_Day. Qed.

(** X4. A lesson whose date does not parse never shows under today's
    lessons, and in no bucket once a month or a date range is selected; with
    no selection it still shows in the bucket of its type. *)
Theorem unparsable_date_buckets (tza : Z) now st fs lesson :
  lesson ∈ lessons st → date lesson = None →
  (lesson ∉ getTodayLessons tza now st fs)
  ∧ (lesson ∉ getFilteredLessonsByType tza now st fs Today)
  ∧ (∀ type_, is_Some (selectedMonth fs) ∨ is_Some (Dashboard.dateRange fs) →
              lesson ∉ getFilteredLessonsByType tza now st fs type_)
  ∧ lesson ∈ getFilteredLessonsByType tza now st initial (OfType (type lesson)).
Proof.
  intros Hin Hdate.
  assert (Hrange : ∀ ls a b,
            lesson ∉ Utils.filterLessonsByDateRange ls a b).
  { intros ls a b. unfold Utils.filterLessonsByDateRange.
    rewrite list_elem_of_filter. cbv beta zeta. rewrite Hdate.
    unfold JSDate.ge, JSDate.le. destruct a, b; simpl; tauto. }
  assert (Htoday : lesson ∉ getTodayLessons tza now st fs).
  { unfold getTodayLessons. cbv zeta.
    assert (H0 : lesson ∉ Utils.filterTodayLessons tza now (lessons st)).
    { rewrite today_utils_iff. intros [_ (d & Hd & _)]. congruence. }
    destruct (Dashboard.dateRange fs) as [[a b]|]; [apply Hrange|].
    destruct (selectedMonth fs) as [i|]; [|done].
    destruct (Utils.getMonthRange tza (targetDate tza now i)). apply Hrange. }
  split_and!; [done| | |].
  - unfold getFilteredLessonsByType, getTodayLessons, filteredLessons.
    cbv zeta.
    destruct (selectedMonth fs) as [i|].
    { destruct (Utils.getMonthRange tza (targetDate tza now i)). apply Hrange. }
    destruct (Dashboard.dateRange fs) as [[a b]|].
    { apply (Hrange _ a b). }
    rewrite today_store_iff. intros [_ (d & Hd & _)]. congruence.
  - intros type_ Hsel. unfold getFilteredLessonsByType. cbv zeta.
    destruct (selectedMonth fs) as [i|].
    { destruct (Utils.getMonthRange tza (targetDate tza now i)). apply Hrange. }
    destruct Hsel as [[? [=]]|Hsel].
    unfold filteredLessons. destruct (Dashboard.dateRange fs) as [[a b]|].
    + apply (Hrange _ a b).
    + by destruct Hsel.
  - unfold getFilteredLessonsByType, filteredLessons. simpl.
    by rewrite list_elem_of_filter.
Qed.

(** X6. While a month slot other than slot 5 is selected, today's bucket is
    empty; while slot 5 (the current month) is selected, the month filter
    removes nothing from it. *)
Theorem today_bucket_under_month (tza : Z) now st fs index :
  selectedMonth fs = Some index →
  (index ≠ 5 → getTodayLessons tza now st fs = [])
  ∧ (index = 5 →
     getTodayLessons tza now st fs
     = getTodayLessons tza now st
         {| selectedMonth := None; dateRange := Dashboard.dateRange fs |}).
Proof.
  intros Hsel. unfold getTodayLessons. cbv zeta. rewrite Hsel. cbn [selectedMonth Dashboard.dateRange].
  split.
  - intros Hne.
    assert (Hnil : (let '(monthStart, monthEnd) :=
              Utils.getMonthRange tza (targetDate tza now index) in
            Utils.filterLessonsByDateRange
              (Utils.filterTodayLessons tza now (lessons st))
              (Some monthStart) (Some monthEnd)) = []).
    { apply elem_of_nil_inv. intros lesson.
      rewrite month_step, today_utils_iff.
      intros [[_ (d & Hd & Hday)] (d' & Hd' & Hmonth)].
      rewrite Hd in Hd'. injection Hd' as <-.
      apply same_day_same_month in Hday. lia. }
    rewrite Hnil. by destruct (Dashboard.dateRange fs) as [[a b]|].
  - intros ->.
    assert (Hid : (let '(monthStart, monthEnd) :=
              Utils.getMonthRange tza (targetDate tza now 5) in
            Utils.filterLessonsByDateRange
              (Utils.filterTodayLessons tza now (lessons st))
              (Some monthStart) (Some monthEnd))
            = Utils.filterTodayLessons tza now (lessons st)).
    { pose proof (in_month_range tza (targetDate tza now 5)) as Hin.
      rewrite targetDate_absMonth in Hin.
      destruct (Utils.getMonthRange tza (targetDate tza now 5)) as [a b].
      cbn [fst snd] in Hin. unfold Utils.filterLessonsByDateRange at 1.
      apply filter_all. intros lesson.
      rewrite today_utils_iff. intros [_ (d & Hd & Hday)]. cbv zeta.
      apply in_date_range. exists d. split; [done|]. apply Hin.
      apply same_day_same_month in Hday. lia. }
    by rewrite Hid.
Qed.

Lemma by_type_filter (tz : JSDate.TimeZone) now st fs t :
  getFilteredLessonsByType tz now st fs (OfType t)
  = filter (λ lesson, type lesson = t)
      (match selectedMonth fs with
       | Some i =>
           let '(monthStart, monthEnd) :=
             Utils.getMonthRange tz (targetDate tz now i) in
           Utils.filterLessonsByDateRange
             (filteredLessons tz now st None (Dashboard.dateRange fs))
             (Some monthStart) (Some monthEnd)
       | None => filteredLessons tz now st None (Dashboard.dateRange fs)
       end).
Proof.
  unfold getFilteredLessonsByType, filteredLessons. cbv zeta.
  destruct (selectedMonth fs) as [i|].
  - destruct (Utils.getMonthRange tz (targetDate tz now i)) as [a b].
    unfold Utils.filterLessonsByDateRange.
    destruct (Dashboard.dateRange fs) as [[c d]|].
    + rewrite (filter_comm _ (λ lesson, type lesson = t)).
      f_equal. apply filter_comm.
    + apply filter_comm.
  - destruct (Dashboard.dateRange fs) as [[c d]|]; [apply filter_comm|done].
Qed.

Lemma type_split ls :
  filter (λ lesson, type lesson = Historic) ls
  ++ filter (λ lesson, type lesson = Upcoming) ls
  ++ filter (λ lesson, type lesson = Available) ls ≡ₚ ls.
Proof.
  induction ls as [|x ls IH]; [done|].
  rewrite !filter_cons. destruct (type x) eqn:Hx; repeat case_decide; try done.
  - simpl. by constructor.
  - simpl. rewrite <- Permutation_middle. by constructor.
  - rewrite app_assoc, <- Permutation_middle, <- app_assoc. by constructor.
Qed.

(** X7. The Historic, Upcoming and Available buckets together hold each
    lesson that passes the selected range and month exactly as often as the
    filtered collection does: no lesson is lost and none shows twice. *)
Theorem type_buckets_partition (tza : Z) now st fs :
  getFilteredLessonsByType tza now st fs (OfType Historic)
  ++ getFilteredLessonsByType tza now st fs (OfType Upcoming)
  ++ getFilteredLessonsByType tza now st fs (OfType Available)
  ≡ₚ match selectedMonth fs with
     | Some i =>
         let '(monthStart, monthEnd) :=
           Utils.getMonthRange tza (targetDate tza now i) in
         Utils.filterLessonsByDateRange
           (filteredLessons tza now st None (Dashboard.dateRange fs))
           (Some monthStart) (Some monthEnd)
     | None => filteredLessons tza now st None (Dashboard.dateRange fs)
     end.
Proof. rewrite !by_type_filter. apply type_split. Qed.

Lemma finalLesson_tutor l0 updatedLesson authState :
  ∃ s, tutor (finalLesson l0 updatedLesson authState) = Some s ∧ s ≠ "".
Proof.
  eexists. split; [reflexivity|].
  assert (Hcur : currentUser authState ≠ "").
  { unfold currentUser, or_else. destruct (user authState) as [u|]; simpl;
      [case_decide|]; done. }
  unfold or_else. destruct (mjoin (r_tutor updatedLesson)) as [t|];
    [case_decide|]; done.
Qed.

Lemma takeClass_success authState lessonId st lesson updatedLesson
    fetchLessons takeClassAPI :
  lesson ∈ lessons st → id lesson = lessonId → type lesson = Available →
  takeClassAPI lessonId = Fulfilled updatedLesson →
  ∃ l0, l0 ∈ lessons st ∧ id l0 = lessonId ∧ type l0 = Available
    ∧ run fetchLessons takeClassAPI (takeClass authState lessonId st)
      = (Returned tt,
         {| lessons := (λ l, if decide (id l = lessonId)
                             then finalLesson l0 updatedLesson authState
                             else l) <$> lessons st;
            loading := loading st; error := error st |},
         [CallTakeClass lessonId]).
Proof.
  intros Hin Hid Hty Hapi.
  destruct (lessonToTake_Some _ _ _ Hin Hid Hty) as (l0 & Hl0 & Hin0 & Hid0 & Hty0).
  destruct (takeClass_guarded authState _ _ _ Hl0) as (k & Hk & Hful & _).
  exists l0. split_and!; try done. rewrite Hk. simpl. by rewrite Hapi, Hful.
Qed.

(** X8. After a claim that succeeded with a response whose type is not
    'Available', no lesson with that id is 'Available' any more, and
    claiming the same id again fails with the guard's error without a
    service call. *)
Theorem takeClass_second_attempt authState lessonId st lesson updatedLesson
    fetchLessons takeClassAPI :
  lesson ∈ lessons st → id lesson = lessonId → type lesson = Available →
  takeClassAPI lessonId = Fulfilled updatedLesson →
  r_type updatedLesson ≠ Some Available →
  ∃ st1,
    run fetchLessons takeClassAPI (takeClass authState lessonId st)
    = (Returned tt, st1, [CallTakeClass lessonId])
    ∧ (∀ l, l ∈ lessons st1 → ¬ (id l = lessonId ∧ type l = Available))
    ∧ (∀ authState' fetchLessons' takeClassAPI',
         run fetchLessons' takeClassAPI' (takeClass authState' lessonId st1)
         = (Threw (ErrorObject "Lesson not found or not available"), st1, [])).
Proof.
  intros Hin Hid Hty Hapi Hr.
  destruct (takeClass_success authState _ _ _ _ fetchLessons _ Hin Hid Hty Hapi)
    as (l0 & _ & _ & _ & Hrun).
  eexists. split; [exact Hrun|].
  match goal with |- ?A ∧ _ => assert (Hnone : A) end.
  { intros l. cbn [lessons]. rewrite list_elem_of_fmap.
    intros (l' & -> & Hl') [Hid' Hty']. case_decide; [|done].
    revert Hty'. cbn [finalLesson type nullish].
    destruct (r_type updatedLesson) as [t|] eqn:Ht; simpl; [|done].
    intros Ht'. apply Hr. by rewrite Ht'. }
  split; [done|]. intros authState' fetchLessons' takeClassAPI'.
  apply lessonToTake_None in Hnone.
  unfold takeClass, bind, get. cbn [bindStep]. cbv zeta. by rewrite Hnone.
Qed.

(** X9. A successful claim keeps the number and the order of the lessons:
    a lesson with another id stays where it is, and at each position that
    held the claimed id there is afterwards a lesson with a non-empty
    tutor. *)
Theorem takeClass_names_a_tutor authState lessonId st lesson updatedLesson
    fetchLessons takeClassAPI :
  lesson ∈ lessons st → id lesson = lessonId → type lesson = Available →
  takeClassAPI lessonId = Fulfilled updatedLesson →
  ∃ st1,
    run fetchLessons takeClassAPI (takeClass authState lessonId st)
    = (Returned tt, st1, [CallTakeClass lessonId])
    ∧ length (lessons st1) = length (lessons st)
    ∧ ∀ i l, lessons st !! i = Some l →
        if decide (id l = lessonId)
        then ∃ l' s, lessons st1 !! i = Some l' ∧ tutor l' = Some s ∧ s ≠ ""
        else lessons st1 !! i = Some l.
Proof.
  intros Hin Hid Hty Hapi.
  destruct (takeClass_success authState _ _ _ _ fetchLessons _ Hin Hid Hty Hapi)
    as (l0 & _ & _ & _ & Hrun).
  eexists. split; [exact Hrun|]. cbn [lessons]. split; [by rewrite length_fmap|].
  intros i l Hl. rewrite list_lookup_fmap, Hl. simpl.
  case_decide; [|done].
  destruct (finalLesson_tutor l0 updatedLesson authState) as (s & Hs & Hne).
  eauto.
Qed.

(** X10. When the claim service answers, [takeClass] writes back the lessons
    it read before the call, patched; the lessons the store holds at that
    moment (a fetch may have replaced them meanwhile) are overwritten, while
    [loading] and [error] are kept. *)
Theorem takeClass_resumes_on_stale_lessons authState lessonId st lesson :
  lesson ∈ lessons st → id lesson = lessonId → type lesson = Available →
  ∃ k patch,
    takeClass authState lessonId st = AwaitTakeClass lessonId st k
    ∧ ∀ updatedLesson st',
        k (Fulfilled updatedLesson) st'
        = Finished (Returned tt)
            {| lessons := patch updatedLesson <$> lessons st;
               loading := loading st'; error := error st' |}.
Proof.
  intros Hin Hid Hty.
  destruct (lessonToTake_Some _ _ _ Hin Hid Hty) as (l0 & Hl0 & _).
  destruct (takeClass_guarded authState _ _ _ Hl0) as (k & Hk & Hful & _).
  exists k, (λ updatedLesson l,
               if decide (id l = lessonId)
               then finalLesson l0 updatedLesson authState else l).
  by split.
Qed.

End StoreMore.

(** ** Month keys *)

Section FormatFacts.
Import Format.

Lemma to_uint_nonnil n : N.to_uint n ≠ Decimal.Nil.
Proof.
  rewrite <- (DecimalN.Unsigned.of_to n) at 1.
  rewrite DecimalN.Unsigned.to_of. apply DecimalFacts.unorm_nonnil.
Qed.

Lemma to_uint_normal n : Decimal.unorm (N.to_uint n) = N.to_uint n.
Proof.
  rewrite <- (DecimalN.Unsigned.of_to n) at 2.
  by rewrite DecimalN.Unsigned.to_of.
Qed.

Lemma repeat_zero_digits k u :
  repeatChar k "0" ++ NilEmpty.string_of_uint u
  = NilEmpty.string_of_uint (Nat.iter k Decimal.D0 u).
Proof. induction k as [|k IH]; [done|]. simpl. rewrite <- IH. reflexivity. Qed.

Lemma string_of_uint_inj u u' :
  NilEmpty.string_of_uint u = NilEmpty.string_of_uint u' → u = u'.
Proof.
  intros H. apply (f_equal NilEmpty.uint_of_string) in H.
  rewrite !NilEmpty.usu in H. by injection H.
Qed.

Lemma toString_digits n : toString n = NilEmpty.string_of_uint (N.to_uint n).
Proof.
  unfold toString, NilZero.string_of_uint.
  pose proof (to_uint_nonnil n). by destruct (N.to_uint n).
Qed.

(** Numbers that are not negative print differently, whatever the
    padding. *)
Lemma addLeadingZeros_inj a b k k' :
  0 ≤ a → 0 ≤ b → addLeadingZeros a k = addLeadingZeros b k' → a = b.
Proof.
  intros Ha Hb. unfold addLeadingZeros, padStart.
  destruct (Z.ltb_spec a 0) as [?|_]; [lia|].
  destruct (Z.ltb_spec b 0) as [?|_]; [lia|].
  change ("" +:+ ?s) with s. rewrite !toString_digits, !repeat_zero_digits.
  intros H%string_of_uint_inj. apply (f_equal Decimal.unorm) in H.
  rewrite !DecimalFacts.unorm_iter_D0, !to_uint_normal in H.
  apply DecimalN.Unsigned.to_uint_inj in H. lia.
Qed.

Lemma append_length (s1 s2 : string) :
  String.length (s1 ++ s2) = (String.length s1 + String.length s2)%nat.
Proof.
  induction s1 as [|c s1 IH]; [done|].
  change (S (String.length (s1 ++ s2))
          = S (String.length s1 + String.length s2)). by rewrite IH.
Qed.

Lemma append_inj_suffix (s1 s2 t1 t2 : string) :
  String.length t1 = String.length t2 →
  s1 ++ t1 = s2 ++ t2 → s1 = s2 ∧ t1 = t2.
Proof.
  intros Hlen. revert s2.
  induction s1 as [|c s1 IH]; intros [|c' s2] H.
  - done.
  - apply (f_equal String.length) in H. rewrite !append_length in H.
    simpl in H. lia.
  - apply (f_equal String.length) in H. rewrite !append_length in H.
    simpl in H. lia.
  - change (String c (s1 ++ t1) = String c' (s2 ++ t2)) in H.
    injection H as -> H. destruct (IH _ H) as [-> ->]. done.
Qed.

Lemma month_digits m :
  0 ≤ m ≤ 11 → String.length (addLeadingZeros (m + 1) 2) = 2%nat.
Proof.
  intros Hm. apply month_cases in Hm.
  destruct Hm as [->|[->|[->|[->|[->|[->|[->|[->|[->|[->|[->| ->]]]]]]]]]]];
    reflexivity.
Qed.

(** In years from 1 on, two dates have the same key exactly when they lie
    in the same month of the same year. *)
Lemma yyyy_MM_inj (tza : Z) a b :
  1 ≤ JSDate.getFullYear tza a → 1 ≤ JSDate.getFullYear tza b →
  (yyyy_MM tza a = yyyy_MM tza b
   ↔ JSDate.absMonth (JSDate.LocalTime tza a)
     = JSDate.absMonth (JSDate.LocalTime tza b)).
Proof.
  intros Ha Hb. unfold yyyy_MM, JSDate.absMonth. cbv zeta.
  unfold JSDate.getFullYear, JSDate.getMonth in *.
  set (ta := JSDate.LocalTime tza a) in *. set (tb := JSDate.LocalTime tza b) in *.
  pose proof (MonthFromTime_bounds ta) as Hma.
  pose proof (MonthFromTime_bounds tb) as Hmb.
  destruct (Z.ltb_spec 0 (JSDate.YearFromTime ta)) as [_|?]; [|lia].
  destruct (Z.ltb_spec 0 (JSDate.YearFromTime tb)) as [_|?]; [|lia].
  split.
  - intros H. apply append_inj_suffix in H as [Hy H].
    + apply addLeadingZeros_inj in Hy; [|lia..].
      change (String "-" (addLeadingZeros (JSDate.MonthFromTime ta + 1) 2)
              = String "-" (addLeadingZeros (JSDate.MonthFromTime tb + 1) 2))
        in H.
      injection H as H. apply addLeadingZeros_inj in H; lia.
    + rewrite !append_length. by rewrite !month_digits.
  - intros H.
    assert (JSDate.YearFromTime ta = JSDate.YearFromTime tb) as -> by lia.
    assert (JSDate.MonthFromTime ta = JSDate.MonthFromTime tb) as -> by lia.
    done.
Qed.

End FormatFacts.

(** ** The service *)

Section ApiProperties.
Import Types Async LessonStore.

Implicit Types (env : Api.ImportMetaEnv) (st : LessonState).

(** X11. Outside mock mode, [fetchLessons] resolves exactly when the server
    answers ok and the body parses; every rejection is an Error whose
    message is 'Failed to fetch lessons' or starts with 'Failed to fetch
    lessons: '; a non-ok answer is prefixed twice, and an aborted request is
    reported as a timeout. *)
Theorem fetchLessons_over_the_network env timeoutText fetch :
  Api.USE_MOCK_API env = false →
  let request := {| Api.url := Api.API_BASE_URL env ++ Api.LESSONS;
                    Api.method := "GET"; Api.body := None |} in
  (∀ data, Api.fetchLessons env timeoutText fetch = Fulfilled data
           ↔ ∃ response, fetch request = inr response
                         ∧ Api.ok response = true
                         ∧ Api.json response = inr data)
  ∧ (∀ e, Api.fetchLessons env timeoutText fetch = Rejected e →
          e = ErrorObject "Failed to fetch lessons"
          ∨ ∃ detail, e = ErrorObject ("Failed to fetch lessons: " ++ detail))
  ∧ (∀ response, fetch request = inr response → Api.ok response = false →
       Api.fetchLessons env timeoutText fetch
       = Rejected (ErrorObject ("Failed to fetch lessons: "
                                ++ "Failed to fetch lessons: "
                                ++ Api.statusText response)))
  ∧ (∀ message, fetch request = inl (Api.RaisedError "AbortError" message) →
       Api.fetchLessons env timeoutText fetch
       = Rejected (ErrorObject ("Failed to fetch lessons: "
                                ++ "Request timeout after "
                                ++ timeoutText ++ "ms"))).
Proof.
  intros Hreal request. unfold Api.fetchLessons, Api.fetchWithTimeout.
  rewrite Hreal. cbv zeta. fold request. split_and!.
  - intros data. destruct (fetch request) as [[name m|]|response] eqn:Hf; simpl.
    + case_decide; simpl; (split; [done|by intros (? & ? & _)]).
    + split; [done|by intros (? & ? & _)].
    + destruct (Api.ok response) eqn:Hok; simpl.
      * destruct (Api.json response) as [err|d] eqn:Hj.
        -- split; [done|]. intros (r & [= <-] & _ & Hd). congruence.
        -- split.
           ++ intros [= <-]. by exists response.
           ++ intros (r & [= <-] & _ & Hd). congruence.
      * split; [done|]. intros (r & [= <-] & Hk & _). congruence.
  - intros e. destruct (fetch request) as [[name m|]|response]; simpl.
    + case_decide; simpl; intros [= <-]; right; eauto.
    + intros [= <-]. by left.
    + destruct (Api.ok response); simpl.
      * destruct (Api.json response) as [[name m|]|d]; [| |done].
        -- intros [= <-]. right; eauto.
        -- intros [= <-]. by left.
      * intros [= <-]. right; eauto.
  - intros response -> Hok. simpl. by rewrite Hok.
  - intros message ->. reflexivity.
Qed.

(** X12. Run against [fetchLessons] of the service, [fetchLessonsData]
    returns with [loading] reset and one service call, and the error it
    records, if any, is one of the service's messages: the store's own
    fallback message is never used. *)
Theorem fetchLessonsData_error_slot env timeoutText fetch takeClassAPI st :
  ∃ st',
    run (Api.fetchLessons env timeoutText fetch) takeClassAPI
        (fetchLessonsData st)
    = (Returned tt, st', [CallFetchLessons])
    ∧ loading st' = false
    ∧ (error st' = None
       ∨ error st' = Some "Failed to fetch lessons"
       ∨ ∃ detail, error st' = Some ("Failed to fetch lessons: " ++ detail))
    ∧ error st' ≠ Some "Failed to fetch lessons data".
Proof.
  destruct (Api.fetchLessons env timeoutText fetch) as [data|e] eqn:Hf.
  - eexists. split; [reflexivity|]. simpl. split_and!; [done|by left|done].
  - assert (He : e = ErrorObject "Failed to fetch lessons"
                 ∨ ∃ detail, e = ErrorObject ("Failed to fetch lessons: " ++ detail)).
    { revert Hf. unfold Api.fetchLessons. destruct (Api.USE_MOCK_API env); [done|].
      cbv zeta.
      destruct (Api.fetchWithTimeout _ _) as [err|response].
      - intros [= <-]. destruct err; [right|left]; eauto.
      - destruct (negb (Api.ok response)).
        + intros [= <-]. right; eauto.
        + destruct (Api.json response) as [err|d]; [|done].
          intros [= <-]. destruct err; [right|left]; eauto. }
    eexists. split; [reflexivity|]. simpl.
    destruct He as [->|[detail ->]]; split_and!; try done.
    + right. by left.
    + right. right. by exists detail.
Qed.


Lemma mock_tutors :
  Forall (λ l, type l = Available ∨ ∃ s, tutor l = Some s ∧ s ≠ "")
         Api.mockLessons.
Proof.
  unfold Api.mockLessons.
  repeat (apply Forall_cons; split; [(by left) || (right; by eexists)|]).
  apply Forall_nil_2.
Qed.

Lemma mock_takeClass_cases env timeoutText fetch lessonId :
  Api.USE_MOCK_API env = true →
  (Api.takeClass env timeoutText fetch lessonId
   = Rejected (ErrorObject "Lesson not found")
   ∧ ∀ l, l ∈ Api.mockLessons → id l ≠ lessonId)
  ∨ ∃ lesson s,
      lesson ∈ Api.mockLessons ∧ id lesson = lessonId ∧ s ≠ ""
      ∧ Api.takeClass env timeoutText fetch lessonId
        = Fulfilled
            {| r_id := Some lessonId; r_date := Some (date lesson);
               r_type := Some (if decide (type lesson = Available)
                               then Upcoming else type lesson);
               r_subject := Some (subject lesson);
               r_students := Some (students lesson);
               r_tutor := Some (Some s);
               r_status := Some (if decide (type lesson = Available)
                                 then Confirmed else status lesson) |}.
Proof.
  intros Hmock. unfold Api.takeClass. rewrite Hmock.
  destruct (list_find _ Api.mockLessons) as [[i lesson]|] eqn:Hfind; simpl.
  - right. apply list_find_Some in Hfind as (Hi & Hid & _).
    apply list_elem_of_lookup_2 in Hi.
    pose proof (proj1 (Forall_forall _ _) mock_tutors lesson Hi) as Htutor.
    case_decide as Hty.
    + exists lesson, (or_else (tutor lesson) "Sarah Tan").
      split_and!; [done|done| |by rewrite Hid, !decide_True].
      unfold or_else. destruct (tutor lesson); [case_decide|]; done.
    + destruct Htutor as [?|(s & Hs & Hne)]; [done|].
      exists lesson, s. split_and!; [done..|].
      unfold Api.whole. by rewrite Hid, Hs, !decide_False.
  - left. split; [done|]. apply list_find_None in Hfind.
    by apply Forall_forall.
Qed.

(** X13. In mock mode [takeClass] of the service rejects, with 'Lesson not
    found', exactly the ids that no mock lesson has; otherwise it answers
    with every field of that lesson, a non-empty tutor and a type that is
    not 'Available' ('Upcoming' and 'Confirmed' for an available
    lesson). *)
Theorem mock_takeClass_response env timeoutText fetch lessonId :
  Api.USE_MOCK_API env = true →
  ((∀ l, l ∈ Api.mockLessons → id l ≠ lessonId) →
   Api.takeClass env timeoutText fetch lessonId
   = Rejected (ErrorObject "Lesson not found"))
  ∧ (∀ e, Api.takeClass env timeoutText fetch lessonId = Rejected e →
          e = ErrorObject "Lesson not found"
          ∧ ∀ l, l ∈ Api.mockLessons → id l ≠ lessonId)
  ∧ (∀ r, Api.takeClass env timeoutText fetch lessonId = Fulfilled r →
          ∃ lesson s,
            lesson ∈ Api.mockLessons ∧ id lesson = lessonId
            ∧ r_id r = Some lessonId
            ∧ r_date r = Some (date lesson)
            ∧ r_subject r = Some (subject lesson)
            ∧ r_students r = Some (students lesson)
            ∧ r_tutor r = Some (Some s) ∧ s ≠ ""
            ∧ (∃ t, r_type r = Some t ∧ t ≠ Available)
            ∧ is_Some (r_status r)
            ∧ (type lesson = Available →
               r_type r = Some Upcoming ∧ r_status r = Some Confirmed)).
Proof.
  intros Hmock.
  destruct (mock_takeClass_cases env timeoutText fetch lessonId Hmock)
    as [[Hrej Hno]|(lesson & s & Hin & Hid & Hs & Hful)].
  - split_and!; [done|by rewrite Hrej; intros e [= <-]|by rewrite Hrej].
  - split_and!.
    + intros Hno. by destruct (Hno lesson Hin).
    + by rewrite Hful.
    + rewrite Hful. intros r [= <-]. exists lesson, s. simpl.
      split_and!; try done.
      * case_decide; eauto.
      * intros Hty. by rewrite !decide_True.
Qed.

(** X14. In mock mode the outcome of a claim in the store does not depend on
    who is signed in: the mock response always names a tutor, so the name
    of the current user is never used. *)
Theorem mock_claim_ignores_signed_in_user
    env timeoutText fetch fetchLessons authState authState' lessonId st :
  Api.USE_MOCK_API env = true →
  run fetchLessons (Api.takeClass env timeoutText fetch)
      (takeClass authState lessonId st)
  = run fetchLessons (Api.takeClass env timeoutText fetch)
      (takeClass authState' lessonId st).
Proof.
  intros Hmock.
  destruct (lessonToTake (lessons st) lessonId) as [l0|] eqn:Hl0.
  - destruct (takeClass_guarded authState _ _ _ Hl0) as (k & -> & Hful & Hrej).
    destruct (takeClass_guarded authState' _ _ _ Hl0)
      as (k' & -> & Hful' & Hrej').
    simpl.
    destruct (mock_takeClass_cases env timeoutText fetch lessonId Hmock)
      as [[-> _]|(lesson & s & _ & _ & Hs & ->)].
    + by rewrite Hrej, Hrej'.
    + rewrite Hful, Hful'.
      match goal with
      | |- context [finalLesson l0 ?r authState] =>
          assert (finalLesson l0 r authState = finalLesson l0 r authState')
            as ->; [|done]
      end.
      unfold finalLesson. simpl. unfold or_else.
      by destruct (decide (s = "")).
  - unfold takeClass, bind, get. simpl. by rewrite Hl0.
Qed.

(** X15. When no base URL is configured (unset or empty), the service is in
    mock mode whatever the mock flag says: [fetchLessons] answers with the
    mock lessons and neither call depends on the network. *)
Theorem no_base_url_no_network env timeoutText lessonId :
  Api.VITE_API_BASE_URL env = None ∨ Api.VITE_API_BASE_URL env = Some "" →
  Api.USE_MOCK_API env = true
  ∧ (∀ fetch, Api.fetchLessons env timeoutText fetch
              = Fulfilled Api.mockLessons)
  ∧ (∀ fetch fetch',
       Api.takeClass env timeoutText fetch lessonId
       = Api.takeClass env timeoutText fetch' lessonId).
Proof.
  intros Hurl.
  assert (Hmock : Api.USE_MOCK_API env = true).
  { unfold Api.USE_MOCK_API. destruct Hurl as [-> | ->]; simpl;
      by rewrite orb_true_r. }
  split_and!; [done| |].
  - intros fetch. unfold Api.fetchLessons. by rewrite Hmock.
  - intros fetch fetch'. unfold Api.takeClass. by rewrite Hmock.
Qed.

End ApiProperties.

(** ** The page: toast, buttons and sections *)

Section PageProperties.
Import Types Async LessonStore Dashboard.

Implicit Types (st : LessonState) (fs : FilterState) (p : Page.PageState).

Lemma run_bindStep {S A B} fetchLessons takeClassAPI
    (x : Step S A) (f : A → Action S B) :
  run fetchLessons takeClassAPI (bindStep x f)
  = let '(o, s, calls) := run fetchLessons takeClassAPI x in
    match o with
    | Returned a =>
        let '(o', s', calls') := run fetchLessons takeClassAPI (f a s) in
        (o', s', (calls ++ calls')%list)
    | Threw e => (Threw e, s, calls)
    end.
Proof.
  induction x as [[a|e] s|s k IH|lessonId s k IH]; simpl.
  - by destruct (run _ _ (f a s)) as [[o' s'] calls'].
  - done.
  - rewrite IH. destruct (run _ _ (k _ s)) as [[[a|e] s'] calls]; [|done].
    by destruct (run _ _ (f a s')) as [[o' s''] calls'].
  - rewrite IH. destruct (run _ _ (k _ s)) as [[[a|e] s'] calls]; [|done].
    by destruct (run _ _ (f a s')) as [[o' s''] calls'].
Qed.

Lemma run_catchStep {S A} fetchLessons takeClassAPI
    (x : Step S A) (h : Thrown → Action S A) :
  run fetchLessons takeClassAPI (catchStep x h)
  = let '(o, s, calls) := run fetchLessons takeClassAPI x in
    match o with
    | Returned a => (Returned a, s, calls)
    | Threw e =>
        let '(o', s', calls') := run fetchLessons takeClassAPI (h e s) in
        (o', s', (calls ++ calls')%list)
    end.
Proof.
  induction x as [[a|e] s|s k IH|lessonId s k IH]; simpl.
  - done.
  - by destruct (run _ _ (h e s)) as [[o' s'] calls'].
  - rewrite IH. destruct (run _ _ (k _ s)) as [[[a|e] s'] calls]; [done|].
    by destruct (run _ _ (h e s')) as [[o' s''] calls'].
  - rewrite IH. destruct (run _ _ (k _ s)) as [[[a|e] s'] calls]; [done|].
    by destruct (run _ _ (h e s')) as [[o' s''] calls'].
Qed.

Lemma run_onStore {A} fetchLessons takeClassAPI (x : Step LessonState A) p :
  run fetchLessons takeClassAPI (Page.onStore x p)
  = let '(o, s, calls) := run fetchLessons takeClassAPI x in
    (o, {| Page.store := s; Page.toast := Page.toast p |}, calls).
Proof.
  revert p. induction x as [o s|s k IH|lessonId s k IH]; intros p; simpl.
  - done.
  - rewrite IH. simpl. by destruct (run _ _ (k _ s)) as [[o s'] calls].
  - rewrite IH. simpl. by destruct (run _ _ (k _ s)) as [[o s'] calls].
Qed.

(** X16. [handleTakeClass] of the page never throws and makes the service
    calls of [takeClass]: it leaves the store as [takeClass] leaves it and
    sets a success toast when [takeClass] returned, an error toast with the
    error's message (a fixed message for a thrown value that is no Error)
    when it threw. *)
Theorem handleTakeClass_toast authState lessonId p fetchLessons takeClassAPI :
  run fetchLessons takeClassAPI (Page.handleTakeClass authState lessonId p)
  = let '(o, st', calls) :=
      run fetchLessons takeClassAPI
          (takeClass authState lessonId (Page.store p)) in
    (Returned tt,
     {| Page.store := st';
        Page.toast :=
          Some match o with
               | Returned _ =>
                   {| Page.message := "Successfully took the class!";
                      Page.toastType := Page.success |}
               | Threw e =>
                   {| Page.message := match e with
                                      | ErrorObject message => message
                                      | OtherValue _ => "Failed to take class"
                                      end;
                      Page.toastType := Page.error_ |}
               end |},
     calls).
Proof.
  unfold Page.handleTakeClass, tryCatch, bind.
  rewrite run_catchStep, run_bindStep, run_onStore.
  destruct (run _ _ (takeClass _ _ _)) as [[[[]|e] st'] calls]; simpl;
    by rewrite app_nil_r.
Qed.


Lemma by_type_elem (tz : JSDate.TimeZone) now st fs t lesson :
  lesson ∈ getFilteredLessonsByType tz now st fs (OfType t) →
  lesson ∈ lessons st ∧ type lesson = t.
Proof.
  rewrite by_type_filter, list_elem_of_filter. intros [Hty Hin].
  split; [|done]. revert Hin. unfold filteredLessons. cbv zeta.
  destruct (selectedMonth fs) as [i|].
  - destruct (Utils.getMonthRange tz (targetDate tz now i)) as [a b].
    unfold Utils.filterLessonsByDateRange.
    rewrite list_elem_of_filter. intros [_ Hin]. revert Hin.
    destruct (Dashboard.dateRange fs) as [[c d]|]; [|done].
    rewrite list_elem_of_filter. tauto.
  - destruct (Dashboard.dateRange fs) as [[c d]|]; [|done].
    rewrite list_elem_of_filter. tauto.
Qed.

(** Today's bucket holds lessons with a valid date only. *)
Lemma today_lessons_dated (tz : JSDate.TimeZone) now st fs lesson :
  lesson ∈ getTodayLessons tz now st fs → is_Some (date lesson).
Proof.
  assert (Hrange : ∀ ls a b,
            lesson ∈ Utils.filterLessonsByDateRange ls a b →
            lesson ∈ ls ∧ is_Some (date lesson)).
  { intros ls a b. unfold Utils.filterLessonsByDateRange.
    rewrite list_elem_of_filter. cbv zeta. intros [[Hge _] Hin].
    split; [done|]. unfold JSDate.ge, JSDate.le in Hge.
    destruct a, (date lesson); by eauto. }
  unfold getTodayLessons, Utils.filterTodayLessons, Utils.getTodayRange.
  cbv zeta.
  destruct (Dashboard.dateRange fs) as [[a b]|]; [by intros [_ ?]%Hrange|].
  destruct (selectedMonth fs) as [i|]; [|by intros [_ ?]%Hrange].
  destruct (Utils.getMonthRange tz (targetDate tz now i)).
  by intros [_ ?]%Hrange.
Qed.

(** A section renders exactly when each of its lessons has a valid date,
    and then lists the button of each card. *)
Lemma section_cases {A} (tz : JSDate.TimeZone) (ls : list Lesson)
    (h : option (string → A)) :
  (Forall (λ l, is_Some (date l)) ls
   ∧ LessonCard.LessonSection tz ls h
     = inr (l ← ls;
            option_list (if decide (type l = Available)
                         then (λ f, f (id l)) <$> h else None)))
  ∨ (Exists (λ l, date l = None) ls
     ∧ LessonCard.LessonSection tz ls h
       = inl (ErrorObject "Invalid time value")).
Proof.
  induction ls as [|x ls IH]; [left; by split|].
  cbn [LessonCard.LessonSection].
  unfold LessonCard.LessonCard, Utils.formatDate, Utils.formatTime,
    Format.format. cbv zeta.
  destruct (date x) as [d|] eqn:Hx; cbn [fmap option_fmap option_map].
  - destruct IH as [[Hall ->]|[Hex ->]].
    + left. split; [apply Forall_cons; by eauto|]. reflexivity.
    + right. split; [by apply Exists_cons_tl|done].
  - right. split; [by apply Exists_cons_hd|done].
Qed.

Lemma no_handler_no_button (ls : list Lesson) :
  (l ← ls;
   option_list (if decide (type l = Available)
                then (λ f : string → string, f (id l)) <$> None
                else None)) = [].
Proof.
  induction ls as [|x ls IH]; [done|]. rewrite bind_cons, IH.
  by case_decide.
Qed.

Lemma handler_buttons (ls : list Lesson) lessonId :
  lessonId ∈ (l ← ls;
              option_list (if decide (type l = Available)
                           then (λ f : string → string, f (id l))
                                  <$> Some (λ lessonId : string, lessonId)
                           else None))
  ↔ ∃ lesson, lesson ∈ ls ∧ type lesson = Available ∧ id lesson = lessonId.
Proof.
  rewrite list_elem_of_bind. split.
  - intros (lesson & Hb & Hin). exists lesson. case_decide; simpl in Hb.
    + apply list_elem_of_singleton in Hb. done.
    + by apply elem_of_nil in Hb.
  - intros (lesson & Hin & Hty & Hid). exists lesson. split; [|done].
    rewrite decide_True by done. simpl. by apply list_elem_of_singleton.
Qed.

(** X17. The page renders exactly when the sections are hidden or every
    lesson of the three type buckets has a date that parses; otherwise a
    card throws the RangeError of [format] and no button is rendered.
    When it renders, it offers a 'Take Class' button exactly for the
    lessons of the Available bucket, and only while the sections are
    shown; a click on any of them passes the guard of [takeClass] and
    reaches the claim service. *)
Theorem take_class_buttons (tz : JSDate.TimeZone) now st fs authState
    lessonId :
  let undated :=
    ∃ t lesson, lesson ∈ getFilteredLessonsByType tz now st fs (OfType t)
                ∧ date lesson = None in
  ((∃ ids, Page.takeClassButtons tz now st fs = inr ids)
   ↔ (Page.showsSections st = true → ¬ undated))
  ∧ (∀ e, Page.takeClassButtons tz now st fs = inl e →
          e = ErrorObject "Invalid time value")
  ∧ (∀ ids, Page.takeClassButtons tz now st fs = inr ids →
       (lessonId ∈ ids
        ↔ Page.showsSections st = true
          ∧ ∃ lesson,
              lesson ∈ getFilteredLessonsByType tz now st fs (OfType Available)
              ∧ id lesson = lessonId)
       ∧ (lessonId ∈ ids →
          loading st = false
          ∧ ∃ k, takeClass authState lessonId st
                 = AwaitTakeClass lessonId st k)).
Proof.
  intros undated.
  assert (Hclick : ∀ lesson,
            Page.showsSections st = true →
            lesson ∈ getFilteredLessonsByType tz now st fs (OfType Available) →
            id lesson = lessonId →
            loading st = false
            ∧ ∃ k, takeClass authState lessonId st
                   = AwaitTakeClass lessonId st k).
  { intros lesson Hshow Hin Hid. apply by_type_elem in Hin as [Hin Hty]. split.
    - unfold Page.showsSections in Hshow. by destruct (loading st).
    - destruct (lessonToTake_Some _ _ _ Hin Hid Hty) as (l0 & Hl0 & _).
      destruct (takeClass_guarded authState _ _ _ Hl0) as (k & Hk & _).
      by exists k. }
  assert (Hbucket : ∀ t ls,
            ls = getFilteredLessonsByType tz now st fs (OfType t) →
            Exists (λ l, date l = None) ls → undated).
  { intros t ls -> (lesson & Hin & Hd)%Exists_exists. by exists t, lesson. }
  assert (Hdated : ∀ ls,
            Forall (λ l, is_Some (date l)) ls →
            ∀ lesson, lesson ∈ ls → date lesson ≠ None).
  { intros ls Hall lesson Hin Hnone.
    rewrite Forall_forall in Hall. destruct (Hall lesson Hin) as [d Hd].
    congruence. }
  unfold Page.takeClassButtons, Page.sections.
  destruct (Page.showsSections st) eqn:Hshow.
  2: { split_and!.
       - split; [done|]. intros _. by exists [].
       - done.
       - intros ids [= <-]. split.
         + split; [by intros ?%elem_of_nil|by intros [? _]].
         + by intros ?%elem_of_nil. }
  cbn [foldr].
  destruct (section_cases (A := string) tz
              (getTodayLessons tz now st fs) None) as [[_ ->]|[Hex _]].
  2: { apply Exists_exists in Hex as (lesson & Hin & Hd).
       apply today_lessons_dated in Hin as [d Hd']. congruence. }
  rewrite no_handler_no_button.
  remember (getFilteredLessonsByType tz now st fs (OfType Available))
    as available eqn:Ha.
  remember (getFilteredLessonsByType tz now st fs (OfType Upcoming))
    as upcoming eqn:Hu.
  remember (getFilteredLessonsByType tz now st fs (OfType Historic))
    as historic eqn:Hh.
  destruct (section_cases tz available
              (Some (λ lessonId : string, lessonId)))
    as [[Hall1 ->]|[Hex ->]].
  2: { split_and!; [|by intros e [= <-]|done].
       split; [by intros [ids ?]|]. intros Hno. destruct (Hno eq_refl).
       exact (Hbucket Available available Ha Hex). }
  destruct (section_cases (A := string) tz upcoming None)
    as [[Hall2 ->]|[Hex ->]].
  2: { split_and!; [|by intros e [= <-]|done].
       split; [by intros [ids ?]|]. intros Hno. destruct (Hno eq_refl).
       exact (Hbucket Upcoming upcoming Hu Hex). }
  destruct (section_cases (A := string) tz historic None)
    as [[Hall3 ->]|[Hex ->]].
  2: { split_and!; [|by intros e [= <-]|done].
       split; [by intros [ids ?]|]. intros Hno. destruct (Hno eq_refl).
       exact (Hbucket Historic historic Hh Hex). }
  rewrite !no_handler_no_button. cbn [app]. rewrite !app_nil_r.
  split_and!.
  - split; [|by eauto]. intros _ _ (t & lesson & Hin & Hd).
    destruct t.
    + rewrite <- Hh in Hin. exact (Hdated _ Hall3 lesson Hin Hd).
    + rewrite <- Hu in Hin. exact (Hdated _ Hall2 lesson Hin Hd).
    + rewrite <- Ha in Hin. exact (Hdated _ Hall1 lesson Hin Hd).
  - done.
  - intros ids [= <-]. rewrite handler_buttons.
    assert (Hiff : (∃ lesson, lesson ∈ available ∧ type lesson = Available
                              ∧ id lesson = lessonId)
                   ↔ true = true
                     ∧ ∃ lesson, lesson ∈ available ∧ id lesson = lessonId).
    { split.
      - intros (lesson & Hin & _ & Hid). split; [done|]. by exists lesson.
      - intros [_ (lesson & Hin & Hid)]. exists lesson.
        split_and!; [done| |done]. rewrite Ha in Hin.
        by eapply by_type_elem. }
    split; [done|]. intros (_ & lesson & Hin & Hid)%Hiff.
    by eapply Hclick.
Qed.

(** X18. While a fetch is pending the sections and their buttons are not
    shown; after a failed fetch the store still holds the previous lessons,
    yet the sections stay hidden unless the error is an Error with an empty
    message. *)
Theorem sections_hidden_by_fetch (tza : Z) now st fs takeClassAPI e :
  (∀ st0, pending (fetchLessonsData st) = Some st0 →
          Page.showsSections st0 = false
          ∧ Page.takeClassButtons tza now st0 fs = inr [])
  ∧ ∃ st',
      run (Rejected e) takeClassAPI (fetchLessonsData st)
      = (Returned tt, st', [CallFetchLessons])
      ∧ lessons st' = lessons st
      ∧ (Page.showsSections st' = true ↔ e = ErrorObject "").
Proof.
  split.
  - intros st0 [= <-]. by unfold Page.takeClassButtons.
  - eexists. split; [reflexivity|]. split; [done|].
    unfold Page.showsSections, Api.truthy. cbn [loading error negb andb].
    destruct e as [m|v].
    + destruct (decide (m = "")) as [->|Hne].
      * done.
      * rewrite bool_decide_eq_true_2 by done. split; [done|].
        by intros [= ->].
    + split; [by vm_compute|done].
Qed.

End PageProperties.

(** ** The filter bar *)

Section FilterBarProperties.
Import Types LessonStore Dashboard.

Implicit Types (st : LessonState) (fs : FilterState) (ls : list Lesson).

Lemma firstDay_lt k k' : k < k' → JSDate.firstDay k < JSDate.firstDay k'.
Proof.
  intros Hk. pose proof (firstDay_succ k). pose proof (firstDay_mono (k + 1) k').
  lia.
Qed.

Lemma firstDay_le_iff k k' : JSDate.firstDay k ≤ JSDate.firstDay k' ↔ k ≤ k'.
Proof.
  split; [|apply firstDay_mono].
  intros H. destruct (Z.le_gt_cases k k') as [|Hgt]; [done|].
  apply firstDay_lt in Hgt. lia.
Qed.

Lemma targetDate_fields (tza : Z) now i :
  JSDate.getFullYear tza (targetDate tza now i)
  = (JSDate.absMonth (JSDate.LocalTime tza now) + (i - 5)) / 12
  ∧ JSDate.getMonth tza (targetDate tza now i)
    = (JSDate.absMonth (JSDate.LocalTime tza now) + (i - 5)) mod 12.
Proof.
  unfold JSDate.getFullYear, JSDate.getMonth. rewrite targetDate_local.
  set (k := JSDate.absMonth _ + _). pose proof (firstDay_succ k).
  destruct (month_start_fields k (JSDate.firstDay k) 0) as (Hy & Hm & _);
    [lia|unfold JSDate.msPerDay; lia|done].
Qed.

(** The months of the bar are the targets of the twelve slot indices. *)
Lemma last12Months_slots (tza : Z) now :
  FilterBar.last12Months tza now
  = (λ i, let date := targetDate tza now i in
          {| FilterBar.monthIndex := JSDate.getMonth tza date;
             FilterBar.year := JSDate.getFullYear tza date;
             FilterBar.monthKey := Format.yyyy_MM tza date;
             FilterBar.monthName :=
               FilterBar.at_ Constants.MONTH_NAMES (JSDate.getMonth tza date);
             FilterBar.monthAbbr :=
               FilterBar.at_ Constants.MONTH_ABBREVIATIONS
                             (JSDate.getMonth tza date) |})
    <$> [0; 1; 2; 3; 4; 5; 6; 7; 8; 9; 10; 11].
Proof.
  unfold FilterBar.last12Months.
  change (reverse (seqZ 0 (MONTH_FILTER.MONTHS_BACK + 1)))
    with [5; 4; 3; 2; 1; 0].
  change (seqZ 1 MONTH_FILTER.MONTHS_FORWARD) with [1; 2; 3; 4; 5; 6].
  assert (Hback : ∀ i j, i ≤ 5 → j = 5 - i →
            targetDate tza now i
            = JSDate.subMonths tza (JSDate.startOfMonth tza now) j).
  { intros i j Hi ->. unfold targetDate. by rewrite decide_True. }
  assert (Hfwd : ∀ i j, 5 < i → j = i - 5 →
            targetDate tza now i
            = JSDate.addMonths tza (JSDate.startOfMonth tza now) j).
  { intros i j Hi ->. unfold targetDate.
    by rewrite decide_False by (unfold MONTH_FILTER.PAST_MONTHS_THRESHOLD; lia). }
  cbn [fmap list_fmap app]. cbv zeta.
  rewrite (Hback 0 5), (Hback 1 4), (Hback 2 3), (Hback 3 2), (Hback 4 1),
    (Hback 5 0), (Hfwd 6 1), (Hfwd 7 2), (Hfwd 8 3), (Hfwd 9 4), (Hfwd 10 5),
    (Hfwd 11 6) by lia.
  reflexivity.
Qed.

Lemma month_name_defined m :
  0 ≤ m ≤ 11 →
  is_Some (FilterBar.at_ Constants.MONTH_NAMES m)
  ∧ is_Some (FilterBar.at_ Constants.MONTH_ABBREVIATIONS m).
Proof.
  intros Hm. apply month_cases in Hm.
  destruct Hm as [->|[->|[->|[->|[->|[->|[->|[->|[->|[->|[->| ->]]]]]]]]]]];
    by split.
Qed.

Lemma slot_lookup (tza : Z) now (index : nat) info :
  FilterBar.last12Months tza now !! index = Some info →
  (index < 12)%nat
  ∧ FilterBar.year info = JSDate.getFullYear tza (targetDate tza now (Z.of_nat index))
  ∧ FilterBar.monthIndex info = JSDate.getMonth tza (targetDate tza now (Z.of_nat index))
  ∧ FilterBar.monthKey info = Format.yyyy_MM tza (targetDate tza now (Z.of_nat index))
  ∧ FilterBar.monthName info
    = FilterBar.at_ Constants.MONTH_NAMES (FilterBar.monthIndex info)
  ∧ FilterBar.monthAbbr info
    = FilterBar.at_ Constants.MONTH_ABBREVIATIONS (FilterBar.monthIndex info).
Proof.
  rewrite last12Months_slots, list_lookup_fmap. intros H.
  apply fmap_Some in H as (i & Hi & ->).
  assert (Hindex : (index < 12)%nat ∧ i = Z.of_nat index).
  { clear -Hi.
    do 12 (destruct index as [|index]; [injection Hi as <-; split; [lia|done]|]).
    done. }
  destruct Hindex as [Hlt ->]. cbv zeta.
  cbn [FilterBar.year FilterBar.monthIndex FilterBar.monthKey
       FilterBar.monthName FilterBar.monthAbbr].
  split_and!; [exact Hlt|reflexivity..].
Qed.

(** X19. The bar has twelve month buttons; for one reading [now] of the
    clock, there is a button at each position [index] below twelve, and it
    stands for the calendar month (index - 5) months from the current one,
    which is the month the page filters by when that index is selected;
    its month name and abbreviation are always defined. *)
Theorem bar_months_are_the_slots (tza : Z) now (index : nat) :
  (index < 12)%nat →
  length (FilterBar.last12Months tza now) = 12%nat
  ∧ ∃ info,
      FilterBar.last12Months tza now !! index = Some info
      ∧ 12 * FilterBar.year info + FilterBar.monthIndex info
        = JSDate.absMonth (JSDate.LocalTime tza now) + (Z.of_nat index - 5)
      ∧ 0 ≤ FilterBar.monthIndex info ≤ 11
      ∧ JSDate.absMonth
          (JSDate.LocalTime tza (targetDate tza now (Z.of_nat index)))
        = 12 * FilterBar.year info + FilterBar.monthIndex info
      ∧ is_Some (FilterBar.monthName info)
      ∧ is_Some (FilterBar.monthAbbr info).
Proof.
  intros Hindex.
  assert (Hlen : length (FilterBar.last12Months tza now) = 12%nat)
    by (by rewrite last12Months_slots, length_fmap).
  split; [done|].
  destruct (FilterBar.last12Months tza now !! index) as [info|] eqn:Hinfo.
  2: { apply lookup_ge_None in Hinfo. lia. }
  exists info. split; [done|].
  apply slot_lookup in Hinfo as (Hlt & Hy & Hm & _ & Hname & Habbr).
  destruct (targetDate_fields tza now (Z.of_nat index)) as [Hy' Hm'].
  rewrite Hy' in Hy. rewrite Hm' in Hm.
  assert (Hrange : 0 ≤ FilterBar.monthIndex info ≤ 11)
    by (rewrite Hm; Z.to_euclidean_division_equations; lia).
  destruct (month_name_defined _ Hrange).
  rewrite targetDate_absMonth, Hname, Habbr.
  split_and!; try done; rewrite ?Hy, ?Hm; Z.to_euclidean_division_equations; lia.
Qed.


Lemma in_window (tza : Z) now d :
  let currentMonth := JSDate.startOfMonth tza now in
  JSDate.ge (Some (JSDate.startOfMonth tza d))
            (Some (JSDate.subMonths tza currentMonth MONTH_FILTER.MONTHS_BACK))
  ∧ JSDate.le (Some (JSDate.startOfMonth tza d))
              (Some (JSDate.addMonths tza currentMonth
                       MONTH_FILTER.MONTHS_FORWARD))
  ↔ JSDate.absMonth (JSDate.LocalTime tza now) - 5
    ≤ JSDate.absMonth (JSDate.LocalTime tza d)
    ≤ JSDate.absMonth (JSDate.LocalTime tza now) + 6.
Proof.
  intros currentMonth. unfold JSDate.ge, JSDate.le, JSDate.subMonths.
  change (- MONTH_FILTER.MONTHS_BACK) with (-5).
  change MONTH_FILTER.MONTHS_FORWARD with 6.
  pose proof (startOfMonth_local tza now) as Hcur. fold currentMonth in Hcur.
  pose proof (addMonths_month_start tza _ _ (-5) Hcur) as Hago.
  pose proof (addMonths_month_start tza _ _ 6 Hcur) as Hfwd.
  pose proof (startOfMonth_local tza d) as Hd.
  set (cur := JSDate.absMonth (JSDate.LocalTime tza now)) in *.
  set (k := JSDate.absMonth (JSDate.LocalTime tza d)) in *.
  rewrite <- (firstDay_le_iff (cur - 5) k), <- (firstDay_le_iff k (cur + 6)).
  replace (cur + -5) with (cur - 5) in Hago by lia.
  revert Hago Hfwd Hd. cbn [JSDate.le].
  unfold JSDate.LocalTime, JSDate.MakeDate, JSDate.msPerDay. fixed_zone. lia.
Qed.

Lemma availableMonths_elem (tza : Z) now ls key :
  key ∈ Page.availableMonths tza now ls
  ↔ ∃ lesson d,
      lesson ∈ ls ∧ date lesson = Some d
      ∧ JSDate.absMonth (JSDate.LocalTime tza now) - 5
        ≤ JSDate.absMonth (JSDate.LocalTime tza d)
        ≤ JSDate.absMonth (JSDate.LocalTime tza now) + 6
      ∧ key = Format.yyyy_MM tza d.
Proof.
  unfold Page.availableMonths. cbv zeta.
  match goal with
  | |- key ∈ foldl ?f ∅ ls ↔ ?R =>
      enough (Hacc : ∀ acc : gset string,
                key ∈ foldl f acc ls ↔ key ∈ acc ∨ R)
        by (rewrite Hacc; split; [intros [H|H]|by right];
            [by apply not_elem_of_empty in H|done])
  end.
  induction ls as [|x ls IH]; intros acc.
  - simpl. split; [by left|]. intros [?|(l & d & Hin & _)]; [done|].
    by apply elem_of_nil in Hin.
  - cbn [foldl]. rewrite IH. clear IH.
    destruct (date x) as [d|] eqn:Hx.
    + cbn [fmap option_fmap option_map].
      pose proof (in_window tza now d) as Hw. cbv zeta in Hw.
      case_decide as Hdec.
      * apply Hw in Hdec. destruct Hdec as [Hlo Hhi].
        rewrite elem_of_union, elem_of_singleton. split.
        -- intros [[->|?]|(l & d' & Hin & Hrest)].
           ++ right. exists x, d. split_and!; [left|done..].
           ++ by left.
           ++ right. exists l, d'. split; [by right|done].
        -- intros [?|(l & d' & Hin & Hd' & Hrange & Hkey)]; [left; by right|].
           apply elem_of_cons in Hin as [->|Hin].
           ++ left. left. congruence.
           ++ right. by exists l, d'.
      * split.
        -- intros [?|(l & d' & Hin & Hrest)]; [by left|].
           right. exists l, d'. split; [by right|done].
        -- intros [?|(l & d' & Hin & Hd' & Hrange & Hkey)]; [by left|].
           apply elem_of_cons in Hin as [->|Hin].
           ++ exfalso. apply Hdec, Hw. congruence.
           ++ right. by exists l, d'.
    + cbn [fmap option_fmap option_map].
      rewrite decide_False by (unfold JSDate.ge, JSDate.le; simpl; tauto).
      split.
      * intros [?|(l & d' & Hin & Hrest)]; [by left|].
        right. exists l, d'. split; [by right|done].
      * intros [?|(l & d' & Hin & Hd' & Hrest)]; [by left|].
        apply elem_of_cons in Hin as [->|Hin]; [congruence|].
        right. by exists l, d'.
Qed.


Lemma absMonth_year (tza : Z) d :
  12 ≤ JSDate.absMonth (JSDate.LocalTime tza d) → 1 ≤ JSDate.getFullYear tza d.
Proof.
  unfold JSDate.absMonth, JSDate.getFullYear.
  pose proof (MonthFromTime_bounds (JSDate.LocalTime tza d)). lia.
Qed.

Lemma slot_has_data (tza : Z) now ls i :
  17 ≤ JSDate.absMonth (JSDate.LocalTime tza now) → 0 ≤ i ≤ 11 →
  Format.yyyy_MM tza (targetDate tza now i) ∈ Page.availableMonths tza now ls
  ↔ ∃ lesson d,
      lesson ∈ ls ∧ date lesson = Some d
      ∧ JSDate.absMonth (JSDate.LocalTime tza d)
        = JSDate.absMonth (JSDate.LocalTime tza now) + (i - 5).
Proof.
  intros Hnow Hi. rewrite availableMonths_elem.
  pose proof (targetDate_absMonth tza now i) as Ht.
  split.
  - intros (lesson & d & Hin & Hd & Hrange & Hkey). exists lesson, d.
    split_and!; [done..|].
    apply yyyy_MM_inj in Hkey; [lia|apply absMonth_year; lia..].
  - intros (lesson & d & Hin & Hd & Hmonth). exists lesson, d.
    split_and!; [done|done|lia|lia|].
    apply yyyy_MM_inj; [apply absMonth_year; lia..|lia].
Qed.

(** X20. For one reading [now] of the clock, not earlier than June of
    year 1, the month button at position [index] is enabled exactly when
    some lesson has a valid date in the calendar month the button stands
    for. *)
Theorem month_button_enabled (tza : Z) now ls (index : nat) info :
  17 ≤ JSDate.absMonth (JSDate.LocalTime tza now) →
  FilterBar.last12Months tza now !! index = Some info →
  FilterBar.monthKey info ∈ Page.availableMonths tza now ls
  ↔ ∃ lesson d,
      lesson ∈ ls ∧ date lesson = Some d
      ∧ JSDate.absMonth (JSDate.LocalTime tza d)
        = JSDate.absMonth (JSDate.LocalTime tza now) + (Z.of_nat index - 5).
Proof.
  intros Hnow (Hlt & _ & _ & -> & _)%slot_lookup.
  apply slot_has_data; [done|lia].
Qed.


(** X22. Applying a complete date range closes the panel of the two inputs
    and shows the 'Clear Filters' button; reopening the panel and emptying
    both inputs hides the button again although the date range stays applied
    to the page. *)
Theorem range_applied_without_clear_button parseDate
    (s : FilterState * FilterBar.BarState) :
  FilterBar.startDate s.2 ≠ "" → FilterBar.endDate s.2 ≠ "" →
  let applied := FilterBar.handleDateRangeApply parseDate s in
  let reopened := FilterBar.toggleDateRange applied in
  let emptied := FilterBar.setEndDate "" (FilterBar.setStartDate "" reopened) in
  FilterBar.showDateRange applied.2 = false
  ∧ FilterBar.showDateRange reopened.2 = true
  ∧ FilterBar.showsClearFilters applied = true
  ∧ dateRange emptied.1
    = Some (parseDate (FilterBar.startDate s.2),
            parseDate (FilterBar.endDate s.2))
  ∧ selectedMonth emptied.1 = None
  ∧ FilterBar.showsClearFilters emptied = false.
Proof.
  intros Hstart Hend applied reopened emptied.
  unfold emptied, reopened, applied.
  unfold FilterBar.handleDateRangeApply. rewrite decide_True by done.
  unfold FilterBar.showsClearFilters, FilterBar.setEndDate,
    FilterBar.setStartDate, FilterBar.toggleDateRange. cbn.
  rewrite (bool_decide_eq_true_2 (FilterBar.startDate s.2 ≠ "")) by done.
  split_and!; [done..|by vm_compute].
Qed.

(** X23. A click on 'Clear Filters' undoes whatever was selected through
    the bar: no month and no range is selected, both inputs are empty, the
    panel is closed and the button itself is hidden; the page then shows
    under each type every lesson of that type, and under today's lessons
    what [filterTodayLessons] keeps of the whole collection. *)
Theorem clear_filters_restores_page (tza : Z) now st
    (s : FilterState * FilterBar.BarState) :
  let s' := FilterBar.handleClearFilters s in
  s'.1 = initial
  ∧ s'.2 = {| FilterBar.showDateRange := false; FilterBar.startDate := "";
              FilterBar.endDate := "" |}
  ∧ FilterBar.showsClearFilters s' = false
  ∧ (∀ t lesson,
       lesson ∈ getFilteredLessonsByType tza now st s'.1 (OfType t)
       ↔ lesson ∈ lessons st ∧ type lesson = t)
  ∧ getTodayLessons tza now st s'.1
    = Utils.filterTodayLessons tza now (lessons st).
Proof.
  intros s'.
  assert (Hsel : s'.1 = initial).
  { unfold s', FilterBar.handleClearFilters, handleMonthChange,
      handleDateRangeChange. cbn [fst]. by rewrite decide_True. }
  rewrite Hsel. split_and!; [done|done|by rewrite (surjective_pairing s'), Hsel| |done].
  intros t lesson. unfold getFilteredLessonsByType, filteredLessons. simpl.
  rewrite list_elem_of_filter. tauto.
Qed.

End FilterBarProperties.

(** ** Instances of the further properties *)

Section MoreInstances.
Import Types Async LessonStore Dashboard Examples MoreExamples.

Lemma date_range_degenerate_example :
  Utils.filterLessonsByDateRange [L004; L007]
    (Some 1762991999000) (Some 1762905600000) = []
  ∧ filteredLessons 0 now store None
      (Some (Some 1762991999000, Some 1762905600000)) = [].
Proof.
  apply (date_range_degenerate 0 now store None [L004; L007]
           (Some 1762991999000) (Some 1762905600000)).
  right. right. unfold JSDate.lt. simpl. lia.
Defined.

Lemma unparsable_date_buckets_example :
  (undated ∉ getTodayLessons 0 now storeWithUndated initial)
  ∧ undated ∈ getFilteredLessonsByType 0 now storeWithUndated initial
                (OfType Upcoming).
Proof.
  destruct (unparsable_date_buckets 0 now storeWithUndated initial undated)
    as (Htoday & _ & _ & Hbucket).
  - simpl. apply list_elem_of_further, list_elem_of_further, list_elem_of_here.
  - reflexivity.
  - by split.
Defined.

Lemma today_bucket_two_routes_example :
  getFilteredLessonsByType cairo quietDay store
    {| selectedMonth := Some 5; dateRange := None |} Today
  = getTodayLessons cairo quietDay store
      {| selectedMonth := Some 5; dateRange := None |}.
Proof.
  apply (today_bucket_two_routes cairo 10800000 quietDay store).
  intros t Ht. unfold quietDay, JSDate.msPerDay in Ht.
  unfold cairo, JSDate.transition. cbn.
  split; (destruct (_ <? _) eqn:Hlt; [apply Z.ltb_lt in Hlt; lia|reflexivity]).
Defined.

Lemma today_bucket_under_month_example :
  getTodayLessons 0 now MoreExamples.fetched
    {| selectedMonth := Some 4; dateRange := None |} = [].
Proof.
  destruct (today_bucket_under_month 0 now MoreExamples.fetched
              {| selectedMonth := Some 4; dateRange := None |} 4)
    as [Hother _].
  - reflexivity.
  - apply Hother. lia.
Defined.

Lemma takeClass_second_attempt_example :
  ∃ st1,
    run (Fulfilled []) (λ _, Fulfilled noFields) (takeClass auth "L007" store)
    = (Returned tt, st1, [CallTakeClass "L007"])
    ∧ run (Fulfilled []) (λ _, Fulfilled noFields) (takeClass auth "L007" st1)
      = (Threw (ErrorObject "Lesson not found or not available"), st1, []).
Proof.
  destruct (takeClass_second_attempt auth "L007" store L007 noFields
              (Fulfilled []) (λ _, Fulfilled noFields))
    as (st1 & Hrun & _ & Hagain).
  - simpl. apply list_elem_of_further, list_elem_of_here.
  - reflexivity.
  - reflexivity.
  - reflexivity.
  - discriminate.
  - exists st1. split; [exact Hrun|apply Hagain].
Defined.

Lemma takeClass_names_a_tutor_example :
  ∃ st1,
    run (Fulfilled []) (λ _, Fulfilled emptyTutor) (takeClass auth "L007" store)
    = (Returned tt, st1, [CallTakeClass "L007"])
    ∧ length (lessons st1) = 2%nat
    ∧ lessons st1 !! 0%nat = Some L004
    ∧ ∃ l' s, lessons st1 !! 1%nat = Some l' ∧ tutor l' = Some s ∧ s ≠ "".
Proof.
  destruct (takeClass_names_a_tutor auth "L007" store L007 emptyTutor
              (Fulfilled []) (λ _, Fulfilled emptyTutor))
    as (st1 & Hrun & Hlen & Hat).
  - simpl. apply list_elem_of_further, list_elem_of_here.
  - reflexivity.
  - reflexivity.
  - reflexivity.
  - exists st1. split_and!; [exact Hrun|exact Hlen| |].
    + exact (Hat 0%nat L004 eq_refl).
    + exact (Hat 1%nat L007 eq_refl).
Defined.

Lemma takeClass_resumes_on_stale_lessons_example :
  ∃ k patch,
    takeClass auth "L007" store = AwaitTakeClass "L007" store k
    ∧ k (Fulfilled noFields) MoreExamples.fetched
      = Finished (Returned tt)
          {| lessons := patch noFields <$> [L004; L007];
             loading := false; error := None |}.
Proof.
  destruct (takeClass_resumes_on_stale_lessons auth "L007" store L007)
    as (k & patch & Hk & Hresume).
  - simpl. apply list_elem_of_further, list_elem_of_here.
  - reflexivity.
  - reflexivity.
  - exists k, patch. split; [exact Hk|].
    exact (Hresume noFields MoreExamples.fetched).
Defined.

Lemma fetchLessons_over_the_network_example :
  Api.fetchLessons liveEnv "30000" badGateway
  = Rejected (ErrorObject
                "Failed to fetch lessons: Failed to fetch lessons: Bad Gateway").
Proof.
  destruct (fetchLessons_over_the_network liveEnv "30000" badGateway)
    as (_ & _ & Hbad & _).
  - reflexivity.
  - exact (Hbad _ eq_refl eq_refl).
Defined.

Lemma mock_takeClass_response_example :
  Api.takeClass mockEnv "30000" badGateway "L999"
  = Rejected (ErrorObject "Lesson not found").
Proof.
  destruct (mock_takeClass_response mockEnv "30000" badGateway "L999")
    as (Hmissing & _).
  - reflexivity.
  - apply Hmissing. intros l Hl. unfold Api.mockLessons in Hl.
    repeat (apply elem_of_cons in Hl as [->|Hl]; [discriminate|]).
    by apply elem_of_nil in Hl.
Defined.

Lemma mock_claim_ignores_signed_in_user_example :
  run (Fulfilled []) (Api.takeClass mockEnv "30000" badGateway)
      (takeClass auth "L007" MoreExamples.fetched)
  = run (Fulfilled []) (Api.takeClass mockEnv "30000" badGateway)
      (takeClass {| user := None |} "L007" MoreExamples.fetched).
Proof.
  apply (mock_claim_ignores_signed_in_user mockEnv "30000" badGateway
           (Fulfilled []) auth {| user := None |} "L007" MoreExamples.fetched).
  reflexivity.
Defined.

Lemma no_base_url_no_network_example :
  Api.USE_MOCK_API mockEnv = true
  ∧ Api.fetchLessons mockEnv "30000" badGateway = Fulfilled Api.mockLessons.
Proof.
  destruct (no_base_url_no_network mockEnv "30000" "L007")
    as (Hmock & Hfetch & _).
  - left. reflexivity.
  - split; [exact Hmock|apply Hfetch].
Defined.

Lemma bar_months_are_the_slots_example :
  length (FilterBar.last12Months 0 now) = 12%nat
  ∧ ∃ info,
      FilterBar.last12Months 0 now !! 5%nat = Some info
      ∧ 12 * FilterBar.year info + FilterBar.monthIndex info
        = JSDate.absMonth (JSDate.LocalTime 0 now) + (5 - 5).
Proof.
  destruct (bar_months_are_the_slots 0 now 5)
    as (Hlen & info & Hinfo & Hmonth & _).
  - lia.
  - split; [exact Hlen|]. exists info. split; [exact Hinfo|exact Hmonth].
Defined.

Lemma month_button_enabled_example :
  FilterBar.monthKey november ∈ Page.availableMonths 0 now [L004; L007].
Proof.
  apply (month_button_enabled 0 now [L004; L007] 5 november).
  - by vm_compute.
  - by vm_compute.
  - exists L004, 1762596000000. split_and!.
    + apply list_elem_of_here.
    + reflexivity.
    + by vm_compute.
Defined.


Lemma range_applied_without_clear_button_example :
  dateRange
    (FilterBar.setEndDate ""
       (FilterBar.setStartDate ""
          (FilterBar.toggleDateRange
             (FilterBar.handleDateRangeApply parseDay typedRange)))).1
  = Some (Some 1761955200000, Some 1764460800000)
  ∧ FilterBar.showsClearFilters
      (FilterBar.setEndDate ""
         (FilterBar.setStartDate ""
            (FilterBar.toggleDateRange
               (FilterBar.handleDateRangeApply parseDay typedRange))))
    = false.
Proof.
  destruct (range_applied_without_clear_button parseDay typedRange)
    as (_ & _ & _ & Hrange & _ & Hhidden).
  - discriminate.
  - discriminate.
  - split; [exact Hrange|exact Hhidden].
Defined.

(** The texts of a card on 2025-11-08T10:00:00Z (UTC), and on a date that
    does not parse. *)
Example card_texts_known_date :
  Utils.formatDate 0 (date L004) = inr "November 08, 2025"
  ∧ Utils.formatTime 0 (date L004) = inr "10:00"
  ∧ Utils.formatDate 0 (date undated)
    = inl (ErrorObject "Invalid time value")
  ∧ LessonCard.LessonSection 0 [L007; undated]
      (Some (λ lessonId : string, lessonId))
    = inl (ErrorObject "Invalid time value")
  ∧ LessonCard.LessonSection 0 [L004; L007]
      (Some (λ lessonId : string, lessonId))
    = inr ["L007"].
Proof. by vm_compute. Qed.

End MoreInstances.
